(** * Dialog Variations: a shallow embedding of [ui-dialog-variations/main.js]

    The plugin consists of one builder, [notice], and six convenience
    constructors around it.  [notice] assembles the markup of a modal
    [<dialog>] with a template string, wires one handler for form submission
    and one click handler per button, shows the dialog modally and removes it
    from the document afterwards.

    The embedding keeps the three phases of the source apart:
    - the app-icon lookup, a [try]/[catch] around host file-system calls;
    - the template and the wiring loop, which are pure;
    - [appendChild] / [showModal] / [remove] in a [try]/[catch]/[finally],
      run in a small monad over the document with three completions
      (fulfilled, rejected, still pending).

    The host (file system, [JSON.parse], the user's actions on the open modal)
    is a record passed to [notice].

    The texts of a request are interpolated into the markup as they are, and
    the handlers are assigned on what [querySelector] finds in the parsed
    markup, before the [try].  [notice] is the function on the markups in
    which [querySelector] finds the elements the template emits: the [form],
    the [#prompt] input and [#btn<idx>] for every index of the buttons list.
    [Dom.notice] is the function for any parser: it takes what
    [querySelector] finds as a parameter, throws where an assignment hits
    [null], and coincides with [notice] when the elements are found
    ([Dom_notice_found]). *)

From Stdlib Require Import String Ascii List ZArith Bool Lia DecimalString.
From Stdlib Require DecimalFacts DecimalNat.
Import ListNotations.

Local Open Scope list_scope.
Local Open Scope string_scope.

(** ** JavaScript values and library functions used by the source *)

Module Js.

(** The double quote and the line break of the template, by name. *)
Definition dq : string := String (ascii_of_nat 34) EmptyString.
Definition nl : string := String (ascii_of_nat 10) EmptyString.

(** An optional string property: [None] is [undefined]. *)
Definition prop := option string.

(** [v ? a : b] on a string-or-undefined: only non-empty strings are truthy. *)
Definition truthy (v : prop) : bool :=
  match v with
  | Some (String _ _) => true
  | _ => false
  end.

(** [v === "lit"]. *)
Definition strict_eq (v : prop) (lit : string) : bool :=
  match v with
  | Some s => String.eqb s lit
  | None => false
  end.

(** [`${v}`] for a string-or-undefined. *)
Definition interp (v : prop) : string :=
  match v with
  | Some s => s
  | None => "undefined"
  end.

(** [`${n}`] for an integer and for an array index.  JavaScript prints an
    integer in decimal as long as its magnitude is below 10^21, which is the
    range meant here; [width] and [iconSize] are such integers. *)
Definition interp_int (z : Z) : string := NilZero.string_of_int (Z.to_int z).
Definition interp_idx (n : nat) : string := NilZero.string_of_uint (Nat.to_uint n).

(** [s.substr(start, len)]. *)
Definition substr (s : string) (start len : nat) : string := substring start len s.

(** [arr.join(sep)], and [`${arr}`], which is [arr.join(",")]. *)
Definition join (sep : string) (arr : list string) : string := String.concat sep arr.
Definition interp_array (arr : list string) : string := join "," arr.

(** [arr.map((x, idx) => f x idx)], indices counted from [idx]. *)
Fixpoint map_from {A B : Type} (f : A -> nat -> B) (idx : nat) (arr : list A) : list B :=
  match arr with
  | [] => []
  | x :: rest => f x idx :: map_from f (S idx) rest
  end.

Definition mapi {A B : Type} (f : A -> nat -> B) (arr : list A) : list B :=
  map_from f 0 arr.

(** [arr.forEach((x, idx) => ...)] where the body updates captured
    variables, here the state [s]. *)
Fixpoint forEach_from {A St : Type} (body : St -> A -> nat -> St) (idx : nat)
    (arr : list A) (s : St) : St :=
  match arr with
  | [] => s
  | x :: rest => forEach_from body (S idx) rest (body s x idx)
  end.

Definition forEach {A St : Type} (body : St -> A -> nat -> St) (arr : list A) (s : St) : St :=
  forEach_from body 0 arr s.

End Js.

(** ** Data model *)

(** A button description [{label, type, variant}]; a missing property is
    [undefined].  An [undefined] array element destructures through the
    [= {}] default to three missing properties. *)
Record Button : Type := mkButton {
  label : Js.prop;
  type : Js.prop;
  variant : Js.prop
}.

(** The first parameter of [notice].  [buttons = None] is the property left
    out (or [undefined]); [Some []] is an empty array. *)
Record Request : Type := mkRequest {
  title : string;
  icon : Js.prop;
  msgs : list string;
  prompt : Js.prop;
  isError : bool;
  buttons : option (list Button)
}.

(** The object the promise resolves to: [{which, value}]. *)
Record Result : Type := mkResult {
  which : Z;
  value : string
}.

(** Default of the destructured [buttons] parameter; it applies when the
    property is [undefined], as every JavaScript default does. *)
Definition default_buttons : list Button :=
  [ mkButton (Some "Close") (Some "submit") (Some "cta") ].

Definition buttons_or_default (b : option (list Button)) : list Button :=
  match b with
  | Some l => l
  | None => default_buttons
  end.

Definition default_width : Z := 360.
Definition default_iconSize : Z := 14.

(** ** The template of [dialog.innerHTML] *)

Module Template.
Import Js.

Fixpoint spaces (n : nat) : string :=
  match n with
  | O => EmptyString
  | S k => String " " (spaces k)
  end.

(** One source line of the template: indentation, text, line break. *)
Definition line (indent : nat) (text : string) : string :=
  spaces indent ++ text ++ nl.

Definition attr (name val : string) : string :=
  name ++ "=" ++ dq ++ val ++ dq.

Definition style (width : Z) (isError : bool) (iconSize : Z) : string :=
  line 0 "<style>" ++
  line 4 "form {" ++
  line 8 ("width: " ++ interp_int width ++ "px;") ++
  line 4 "}" ++
  line 4 "form h1 {" ++
  line 8 "display: flex;" ++
  line 8 "flex-direction: row;" ++
  line 8 "justify-content: space-between;" ++
  line 8 "align-items: center;" ++
  line 8 (if isError then "color: #D7373F" else EmptyString) ++
  line 4 "}" ++
  line 4 "form h1 img {" ++
  line 8 ("width: " ++ interp_int iconSize ++ "px;") ++
  line 8 ("height: " ++ interp_int iconSize ++ "px;") ++
  line 8 ("flex: 0 0 " ++ interp_int iconSize ++ "px;") ++
  line 4 "}" ++
  line 0 "</style>".

(** [icon ? `<img src="${icon}" />` : ''] *)
Definition img (icon : Js.prop) : string :=
  if truthy icon then "<img " ++ attr "src" (interp icon) ++ " />" else EmptyString.

Definition header (title : string) (icon : Js.prop) : string :=
  line 4 "<h1>" ++
  line 8 ("<span>" ++ title ++ "</span>") ++
  line 8 (img icon) ++
  line 4 "</h1>".

(** [msg.substr(0, 4) === "http" ? `<a href="${msg}">${msg}</a>` : `<p>${msg}</p>`] *)
Definition message (msg : string) : string :=
  if String.eqb (substr msg 0 4) "http"
  then "<a " ++ attr "href" msg ++ ">" ++ msg ++ "</a>"
  else "<p>" ++ msg ++ "</p>".

(** [msgs.map(...).join('')] *)
Definition messages (msgs : list string) : string :=
  join EmptyString (map message msgs).

Definition prompt_input (prompt : Js.prop) : string :=
  if truthy prompt then
    nl ++
    line 16 "<label>" ++
    line 20 ("<input " ++ attr "type" "text" ++ " " ++ attr "id" "prompt" ++ " "
               ++ attr "placeholder" (interp prompt) ++ " />") ++
    line 16 "</label>" ++
    spaces 12
  else EmptyString.

(** [`<button id="btn${idx}" type="${type}" uxp-variant="${variant}">${label}</button>`] *)
Definition button (b : Button) (idx : nat) : string :=
  "<button " ++ attr "id" ("btn" ++ interp_idx idx) ++ " "
    ++ attr "type" (interp (type b)) ++ " "
    ++ attr "uxp-variant" (interp (variant b)) ++ ">"
    ++ interp (label b) ++ "</button>".

(** [`${buttons.map(...)}`]: the array itself is interpolated. *)
Definition footer_buttons (buttons : list Button) : string :=
  interp_array (mapi button buttons).

Definition footer (buttons : list Button) : string :=
  line 4 "<footer>" ++
  line 8 (footer_buttons buttons) ++
  line 4 "</footer>".

Definition form (title : string) (icon : Js.prop) (msgs : list string)
    (prompt : Js.prop) (buttons : list Button) : string :=
  line 0 ("<form " ++ attr "method" "dialog" ++ ">") ++
  header title icon ++
  line 4 (messages msgs) ++
  line 4 (prompt_input prompt) ++
  footer buttons ++
  line 0 "</form>".

Definition innerHTML (width : Z) (isError : bool) (iconSize : Z) (title : string)
    (icon : Js.prop) (msgs : list string) (prompt : Js.prop)
    (buttons : list Button) : string :=
  nl ++
  style width isError iconSize ++
  form title icon msgs prompt buttons ++
  spaces 4.

End Template.

(** ** Completions, the document and the host *)

Inductive JsError : Type :=
| TypeError (msg : string)
| SyntaxError (msg : string)
| HostError (msg : string).

(** The result of a host call once awaited: a value or a thrown error. *)
Inductive Exc (A : Type) : Type :=
| Ok (a : A)
| Throw (e : JsError).
Arguments Ok {A} a.
Arguments Throw {A} e.

(** How an async function stands when the host script is exhausted. *)
Inductive Completion (A : Type) : Type :=
| Fulfilled (a : A)
| Rejected (e : JsError)
| Pending.
Arguments Fulfilled {A} a.
Arguments Rejected {A} e.
Arguments Pending {A}.

(** The document: a supply of node identities and the nodes attached to it. *)
Record Document : Type := mkDocument {
  next_node : nat;
  children : list nat
}.

Definition Async (A : Type) : Type := Document -> Completion A * Document.

Module AsyncMonad.

Definition ret {A : Type} (a : A) : Async A := fun doc => (Fulfilled a, doc).

Definition throw {A : Type} (e : JsError) : Async A := fun doc => (Rejected e, doc).

Definition bind {A B : Type} (m : Async A) (k : A -> Async B) : Async B :=
  fun doc =>
    match m doc with
    | (Fulfilled a, doc') => k a doc'
    | (Rejected e, doc') => (Rejected e, doc')
    | (Pending, doc') => (Pending, doc')
    end.

(** [await] of a host promise that has settled. *)
Definition await {A : Type} (x : Exc A) : Async A :=
  match x with
  | Ok a => ret a
  | Throw e => throw e
  end.

(** [try { body } catch (err) { handler err }] *)
Definition try_catch {A : Type} (body : Async A) (handler : JsError -> Async A) : Async A :=
  fun doc =>
    match body doc with
    | (Rejected e, doc') => handler e doc'
    | settled => settled
    end.

(** [try { body } finally { fin }]: [fin] runs once [body] has completed
    either way and keeps the completion of [body] unless it throws itself;
    while [body] is pending nothing runs. *)
Definition try_finally {A : Type} (body : Async A) (fin : Async unit) : Async A :=
  fun doc =>
    match body doc with
    | (Pending, doc') => (Pending, doc')
    | (done, doc') =>
        match fin doc' with
        | (Fulfilled _, doc'') => (done, doc'')
        | (Rejected e, doc'') => (Rejected e, doc'')
        | (Pending, doc'') => (Pending, doc'')
        end
    end.

Declare Scope async_scope.
Delimit Scope async_scope with async.
Notation "x <- m ;; k" := (bind m (fun x => k))
  (at level 100, m at next level, right associativity) : async_scope.
Notation "m ;;; k" := (bind m (fun _ => k))
  (at level 100, right associativity) : async_scope.

End AsyncMonad.

(** The part of [require("uxp").storage.localFileSystem] the source uses. *)
Record File : Type := mkFile { read : Exc string }.
Record Folder : Type := mkFolder { getEntry : string -> Exc (option File) }.
Record FileSystem : Type := mkFileSystem { getPluginFolder : Exc Folder }.

(** [JSON.parse(json)] as far as the source looks into it: the [icon]
    property of the manifest. *)
Record Manifest : Type := mkManifest { manifest_icon : Js.prop }.

(** What happens to the open modal, in order. *)
Inductive Event : Type :=
| TypeText (text : string)      (* the user edits the [#prompt] input *)
| Click (idx : nat)             (* the user activates [#btn<idx>] *)
| Submit                        (* the form's submit event fires *)
| Dismiss (err : JsError).      (* the host closes the modal: [showModal] rejects *)

Record Host : Type := mkHost {
  localFileSystem : Exc FileSystem;
  JSON_parse : string -> Exc Manifest;
  appendChild_error : option JsError;
  user : list Event
}.

(** ** The dialog element and its handlers *)

(** What a click handler did: [e.preventDefault()] and [dialog.close(v)]. *)
Record ClickEffect : Type := mkClickEffect {
  defaultPrevented : bool;
  closedWith : option Result
}.

(** The [<dialog>] element once built.  Handlers take the live value of the
    [#prompt] input, which they read when they run. *)
Record Dialog : Type := mkDialog {
  node : nat;
  innerHTML : string;
  prompt_input : bool;                          (* [#prompt] is in the markup *)
  form_onsubmit : string -> Result;             (* argument of [dialog.close] *)
  button_onclick : list (string -> ClickEffect) (* by button index *)
}.

(** [{which: idx, value: prompt ? dialog.querySelector("#prompt").value : ''}] *)
Definition close_value (prompt : Js.prop) (idx : Z) (input : string) : Result :=
  {| which := idx; value := if Js.truthy prompt then input else EmptyString |}.

(** [button.onclick = e => { e.preventDefault(); dialog.close({which: idx, ...}) }] *)
Definition click_handler (prompt : Js.prop) (idx : nat) (input : string) : ClickEffect :=
  {| defaultPrevented := true;
     closedWith := Some (close_value prompt (Z.of_nat idx) input) |}.

(** The variables the [buttons.forEach] loop assigns. *)
Record Wiring : Type := mkWiring {
  okButtonIdx : Z;
  cancelButtonIdx : Z;
  onclick : list (string -> ClickEffect)
}.

Definition is_ok_button (b : Button) : bool :=
  Js.strict_eq (type b) "submit" || Js.strict_eq (variant b) "cta".

Definition is_cancel_button (b : Button) : bool :=
  Js.strict_eq (type b) "reset".

(** Body of the [forEach] callback. *)
Definition wire_button (prompt : Js.prop) (w : Wiring) (b : Button) (idx : nat) : Wiring :=
  {| okButtonIdx := if is_ok_button b then Z.of_nat idx else okButtonIdx w;
     cancelButtonIdx := if is_cancel_button b then Z.of_nat idx else cancelButtonIdx w;
     onclick := (onclick w ++ [click_handler prompt idx])%list |}.

Definition wire_buttons (prompt : Js.prop) (buttons : list Button) : Wiring :=
  Js.forEach (wire_button prompt) buttons
    {| okButtonIdx := -1; cancelButtonIdx := -1; onclick := [] |}.

(** The dialog element once the template is assigned and the handlers are
    wired, [querySelector] having found the form and every button (see
    [Dom.wire] for the loop with the lookups).  [form.onsubmit] reads
    [okButtonIdx] when it runs, which is after the loop: it sees the last
    assignment. *)
Definition build_dialog (n : nat) (width : Z) (iconSize : Z) (icon : Js.prop)
    (req : Request) : Dialog :=
  let bs := buttons_or_default (buttons req) in
  let w := wire_buttons (prompt req) bs in
  {| node := n;
     innerHTML := Template.innerHTML width (isError req) iconSize (title req) icon
                    (msgs req) (prompt req) bs;
     prompt_input := Js.truthy (prompt req);
     form_onsubmit := close_value (prompt req) (okButtonIdx w);
     button_onclick := onclick w |}.

(** ** Host primitives on the document *)

Definition createElement : Async nat :=
  fun doc => (Fulfilled (next_node doc),
              {| next_node := S (next_node doc); children := children doc |}).

Definition appendChild (h : Host) (n : nat) : Async unit :=
  fun doc =>
    match appendChild_error h with
    | Some e => (Rejected e, doc)
    | None => (Fulfilled tt, {| next_node := next_node doc; children := (children doc ++ [n])%list |})
    end.

Definition remove (n : nat) : Async unit :=
  fun doc => (Fulfilled tt,
              {| next_node := next_node doc;
                 children := filter (fun m => negb (Nat.eqb m n)) (children doc) |}).

(** The modal while open: events are served in order until a handler closes
    the dialog or the host dismisses it.  [input] is the live value of the
    [#prompt] input. *)
Fixpoint serve (d : Dialog) (input : string) (events : list Event) : Completion Result :=
  match events with
  | [] => Pending
  | TypeText text :: rest => serve d (if prompt_input d then text else input) rest
  | Click idx :: rest =>
      match nth_error (button_onclick d) idx with
      | Some handler =>
          match closedWith (handler input) with
          | Some r => Fulfilled r
          | None => serve d input rest
          end
      | None => serve d input rest
      end
  | Submit :: _ => Fulfilled (form_onsubmit d input)
  | Dismiss err :: _ => Rejected err
  end.

Definition showModal (h : Host) (d : Dialog) : Async Result :=
  fun doc => (serve d EmptyString (user h), doc).

(** ** [notice] *)

Section Notice.
Import AsyncMonad.
Local Open Scope async_scope.

Variable h : Host.

(** The [if (icon === 'app-icon') { try { ... } catch (err) { } }] block;
    it returns the two variables it may assign. *)
Definition app_icon (icon : Js.prop) (iconSize : Z) : Async (Js.prop * Z) :=
  if Js.strict_eq icon "app-icon" then
    try_catch
      (fs <- await (localFileSystem h) ;;
       dataFolder <- await (getPluginFolder fs) ;;
       manifestFile <- await (getEntry dataFolder "manifest.json") ;;
       match manifestFile with
       | Some file =>
           json <- await (read file) ;;
           manifest <- await (JSON_parse h json) ;;
           let iconName := manifest_icon manifest in
           if Js.truthy iconName then ret (iconName, 32%Z) else ret (icon, iconSize)
       | None => ret (icon, iconSize)
       end)
      (fun _ => ret (icon, iconSize))
  else ret (icon, iconSize).

Definition notice (req : Request) (width : Z) (iconSize : Z) : Async Result :=
  resolved <- app_icon (icon req) iconSize ;;
  n <- createElement ;;
  let dialog := build_dialog n width (snd resolved) (fst resolved) req in
  let cancelButtonIdx :=
    cancelButtonIdx (wire_buttons (prompt req) (buttons_or_default (buttons req))) in
  try_finally
    (try_catch
       (appendChild h (node dialog) ;;; showModal h dialog)
       (fun _ => ret {| which := cancelButtonIdx; value := EmptyString |}))
    (remove (node dialog)).

End Notice.

(** ** The convenience constructors *)

Module Variations.

Definition default_labels : list string := ["Cancel"; "OK"].

(** Default of the [buttons] parameter of [confirm], [warning], [prompt]. *)
Definition labels_or_default (buttons : option (list string)) : list string :=
  match buttons with
  | Some l => l
  | None => default_labels
  end.

Definition alert_request (title : string) (msgs : list string) : Request :=
  mkRequest title None msgs None false None.

Definition alert (h : Host) (title : string) (msgs : list string) : Async Result :=
  notice h (alert_request title msgs) default_width default_iconSize.

Definition alertWithAppIcon_request (title : string) (msgs : list string) : Request :=
  mkRequest title (Some "app-icon") msgs None false None.

Definition alertWithAppIcon (h : Host) (title : string) (msgs : list string)
    : Async Result :=
  notice h (alertWithAppIcon_request title msgs) default_width default_iconSize.

Definition error_request (title : string) (msgs : list string) : Request :=
  mkRequest title (Some "assets/alert-red.png") msgs None true None.

Definition error (h : Host) (title : string) (msgs : list string) : Async Result :=
  notice h (error_request title msgs) default_width default_iconSize.

Definition confirm_request (title msg : string) (buttons : option (list string))
    : Request :=
  let buttons := labels_or_default buttons in
  mkRequest title None [msg] None false
    (Some [ mkButton (nth_error buttons 0) (Some "reset") (Some "primary");
            mkButton (nth_error buttons 1) (Some "submit") (Some "cta") ]).

Definition confirm (h : Host) (title msg : string) (buttons : option (list string))
    : Async Result :=
  notice h (confirm_request title msg buttons) default_width default_iconSize.

Definition warning_request (title msg : string) (buttons : option (list string))
    : Request :=
  let buttons := labels_or_default buttons in
  mkRequest title None [msg] None false
    (Some [ mkButton (nth_error buttons 0) (Some "submit") (Some "primary");
            mkButton (nth_error buttons 1) (Some "button") (Some "warning") ]).

Definition warning (h : Host) (title msg : string) (buttons : option (list string))
    : Async Result :=
  notice h (warning_request title msg buttons) default_width default_iconSize.

Definition prompt_request (title msg : string) (prompt : Js.prop)
    (buttons : option (list string)) : Request :=
  let buttons := labels_or_default buttons in
  mkRequest title None [msg] prompt false
    (Some [ mkButton (nth_error buttons 0) (Some "reset") (Some "primary");
            mkButton (nth_error buttons 1) (Some "submit") (Some "cta") ]).

Definition prompt (h : Host) (title msg : string) (prompt : Js.prop)
    (buttons : option (list string)) : Async Result :=
  notice h (prompt_request title msg prompt buttons) default_width default_iconSize.

End Variations.

(** ** Vocabulary of the statements *)

(** [needle] occurs in [hay]. *)
Definition contains (needle hay : string) : Prop :=
  exists before after, hay = before ++ needle ++ after.

(** [z] is the index of the last button satisfying [P], or [-1] when no
    button does. *)
Definition last_index_of (P : Button -> bool) (bs : list Button) (z : Z) : Prop :=
  (z = (-1)%Z /\ forall i b, nth_error bs i = Some b -> P b = false)
  \/ (exists i b, z = Z.of_nat i /\ nth_error bs i = Some b /\ P b = true /\
        forall j b', i < j -> nth_error bs j = Some b' -> P b' = false).

(** [z] is the index of the first button satisfying [P]. *)
Definition first_index_of (P : Button -> bool) (bs : list Button) (z : Z) : Prop :=
  exists i b, z = Z.of_nat i /\ nth_error bs i = Some b /\ P b = true /\
    forall j b', j < i -> nth_error bs j = Some b' -> P b' = false.

(** An event that leaves a modal with [nbuttons] buttons open: typing, or a
    click that hits no button. *)
Definition idle (nbuttons : nat) (e : Event) : bool :=
  match e with
  | TypeText _ => true
  | Click idx => Nat.leb nbuttons idx
  | Submit => false
  | Dismiss _ => false
  end.

(** The text in the [#prompt] input after [events], starting from [input];
    without an input element there is nothing to type into. *)
Fixpoint typed (has_input : bool) (input : string) (events : list Event) : string :=
  match events with
  | [] => input
  | TypeText text :: rest => typed has_input (if has_input then text else input) rest
  | _ :: rest => typed has_input input rest
  end.

(** A folded scan that keeps the last index satisfying [P]; the two index
    variables of the wiring loop are instances of it. *)
Fixpoint scan_last (P : Button -> bool) (idx : nat) (bs : list Button) (acc : Z) : Z :=
  match bs with
  | [] => acc
  | b :: rest => scan_last P (S idx) rest (if P b then Z.of_nat idx else acc)
  end.

(** The icon and icon size [notice] renders with, after the app-icon block. *)
Definition resolved_icon (h : Host) (icon : Js.prop) (iconSize : Z) : Js.prop * Z :=
  match fst (app_icon h icon iconSize (mkDocument 0 [])) with
  | Fulfilled r => r
  | _ => (icon, iconSize)
  end.

(** The dialog element [notice] builds and shows in document [doc]. *)
Definition shown_dialog (h : Host) (req : Request) (width iconSize : Z) (doc : Document)
    : Dialog :=
  let r := resolved_icon h (icon req) iconSize in
  build_dialog (next_node doc) width (snd r) (fst r) req.

(** The object of the [catch] branch. *)
Definition dismissed_result (req : Request) : Result :=
  {| which := cancelButtonIdx (wire_buttons (prompt req) (buttons_or_default (buttons req)));
     value := EmptyString |}.

(** The document after [dialog.remove()] for the node allocated in [doc]. *)
Definition torn_down (doc : Document) (attached : list nat) : Document :=
  {| next_node := S (next_node doc);
     children := filter (fun m => negb (Nat.eqb m (next_node doc))) attached |}.

(** The ways the manifest lookup of the app-icon block fails to produce a
    manifest. *)
Inductive manifest_unresolved (h : Host) : Prop :=
| no_file_system e :
    localFileSystem h = Throw e -> manifest_unresolved h
| no_plugin_folder fs e :
    localFileSystem h = Ok fs -> getPluginFolder fs = Throw e -> manifest_unresolved h
| entry_lookup_throws fs folder e :
    localFileSystem h = Ok fs -> getPluginFolder fs = Ok folder ->
    getEntry folder "manifest.json" = Throw e -> manifest_unresolved h
| no_manifest_entry fs folder :
    localFileSystem h = Ok fs -> getPluginFolder fs = Ok folder ->
    getEntry folder "manifest.json" = Ok None -> manifest_unresolved h
| manifest_unreadable fs folder file e :
    localFileSystem h = Ok fs -> getPluginFolder fs = Ok folder ->
    getEntry folder "manifest.json" = Ok (Some file) -> read file = Throw e ->
    manifest_unresolved h
| manifest_unparsable fs folder file json e :
    localFileSystem h = Ok fs -> getPluginFolder fs = Ok folder ->
    getEntry folder "manifest.json" = Ok (Some file) -> read file = Ok json ->
    JSON_parse h json = Throw e -> manifest_unresolved h.

(** Markup the statements name. *)
Definition hyperlink (href text : string) : string :=
  "<a href=" ++ Js.dq ++ href ++ Js.dq ++ ">" ++ text ++ "</a>".

Definition paragraph (text : string) : string :=
  "<p>" ++ text ++ "</p>".

Definition img_tag (src : string) : string :=
  "<img src=" ++ Js.dq ++ src ++ Js.dq ++ " />".

(** ** Sample inputs *)

(** A host without a readable manifest on which [appendChild] succeeds and
    the user does [events]. *)
Definition host_without_manifest (events : list Event) : Host :=
  mkHost (Throw (HostError "no file system")) (fun _ => Throw (SyntaxError "not JSON"))
    None events.

(** A host whose [document.appendChild] throws. *)
Definition host_refusing_append : Host :=
  mkHost (Throw (HostError "no file system")) (fun _ => Throw (SyntaxError "not JSON"))
    (Some (HostError "append refused")) [].

Definition empty_document : Document := mkDocument 0 [].

Definition with_buttons (req : Request) (bs : option (list Button)) : Request :=
  mkRequest (title req) (icon req) (msgs req) (prompt req) (isError req) bs.

(** The modal-display step fails: [appendChild] throws, or the host
    dismisses the open modal before any handler has closed it. *)
Definition modal_display_fails (h : Host) (nbuttons : nat) : Prop :=
  (exists err, appendChild_error h = Some err)
  \/ (appendChild_error h = None /\
      exists pre err rest,
        user h = (pre ++ Dismiss err :: rest)%list /\
        forallb (idle nbuttons) pre = true).

(** ** The commands *)

Module Commands.
Import AsyncMonad.
Local Open Scope async_scope.

(** [return alert(...)] in a function that can also run off its end: the
    value of the call, where [None] stands for [undefined]. *)
Definition returning (call : Async Result) : Async (option Result) :=
  r <- call ;; ret (Some r).

Definition showAlert (h : Host) : Async Result :=
  Variations.alert h "Connect to the Internet"
    ["In order to function correctly, this plugin requires Internet access. Please connect to a network that has Internet access."].

(** The first dialog of [showConfirm], [showPrompt] and [showWarning]. *)
Definition showConfirm_question (h : Host) : Async Result :=
  Variations.confirm h "Enable Smart Filters?"
    "Smart filters are nondestructive and will preserve your original images."
    (Some ["Cancel"; "Enable"]).

Definition showPrompt_question (h : Host) : Async Result :=
  Variations.prompt h "Create Shape" "What kind of shape you would like to create?"
    (Some "Shape") None.

Definition showWarning_question (h : Host) : Async Result :=
  Variations.warning h "Reset Preferences?"
    "Are you sure you want to reset your plugin preferences?"
    (Some ["Cancel"; "Reset Preferences"]).

(** Each command awaits its first dialog on host [h] and, in a [switch] on
    [which] with the cases 0 and 1 only, returns a second dialog, shown on
    host [h']; any other value leaves the [switch] and the function returns
    [undefined]. *)
Definition showConfirm (h h' : Host) : Async (option Result) :=
  feedback <- showConfirm_question h ;;
  match which feedback with
  | 0%Z => returning (Variations.alert h' "Smart Filters" ["You clicked 'Cancel'"])
  | 1%Z => returning (Variations.alert h' "Smart Filters Enabled" ["You clicked 'Enable'"])
  | _ => ret None
  end.

Definition showPrompt (h h' : Host) : Async (option Result) :=
  res <- showPrompt_question h ;;
  match which res with
  | 0%Z => returning (Variations.alert h' "Shape to Create"
                        ["You didn't want to apply a shape."])
  | 1%Z => returning (Variations.alert h' "Shape to Create"
                        ["You wanted to create a " ++ value res ++ "!"])
  | _ => ret None
  end.

Definition showWarning (h h' : Host) : Async (option Result) :=
  res <- showWarning_question h ;;
  match which res with
  | 0%Z => returning (Variations.alert h' "Preferences Preserved"
                        ["Your preferences are safe."])
  | 1%Z => returning (Variations.alert h' "Preferences Reset"
                        ["Your preferences have been reset."])
  | _ => ret None
  end.

Definition showError (h : Host) : Async Result :=
  Variations.error h "Couldn't save your changes"
    ["Your computer reports that you are out of storage space. Please move or remove some files to free up space and try again."].

Definition showAbout (h : Host) : Async Result :=
  Variations.alertWithAppIcon h "About Dialog Variations"
    [ "Dialog variations shows several different standard dialog templates for alerts, confirmations, prompts, and more.";
      "For more information, please see:";
      "https://github.com/AdobeXD/Plugin-Samples/tree/master/ui-dialog-variations" ].

End Commands.

(** ** Further vocabulary *)

(** Every child of the document was allocated by it. *)
Definition well_formed (doc : Document) : Prop :=
  Forall (fun m => m < next_node doc) (children doc).

(** A host on which the manifest of the plugin is found, read and parsed to
    [manifest]. *)
Definition manifest_resolves (h : Host) (manifest : Manifest) : Prop :=
  exists fs folder file json,
    localFileSystem h = Ok fs /\ getPluginFolder fs = Ok folder /\
    getEntry folder "manifest.json" = Ok (Some file) /\ read file = Ok json /\
    JSON_parse h json = Ok manifest.

(** A host with a manifest naming [icon], on which the user does [events]. *)
Definition host_with_manifest_icon (icon : Js.prop) (events : list Event) : Host :=
  mkHost
    (Ok (mkFileSystem (Ok (mkFolder (fun _ => Ok (Some (mkFile (Ok "{...}"))))))))
    (fun _ => Ok (mkManifest icon)) None events.

(** The first event of a script closes the modal right away when it is a
    click on an existing button or a form submission. *)
Definition closes_by_handler (nbuttons : nat) (e : Event) : bool :=
  match e with
  | Click idx => Nat.ltb idx nbuttons
  | Submit => true
  | _ => false
  end.

(** An async computation that leaves a well-formed document well formed,
    never gives back a node identity, and, once it has completed, leaves the
    children of the document as they were. *)
Definition frames {A : Type} (m : Async A) : Prop :=
  forall doc : Document,
    well_formed doc ->
    well_formed (snd (m doc)) /\
    next_node doc <= next_node (snd (m doc)) /\
    (fst (m doc) <> Pending -> children (snd (m doc)) = children doc).

(** ** [notice] with the lookups of [querySelector] *)

Module Dom.
Import AsyncMonad.
Local Open Scope async_scope.

(** The HTML parser of the host as far as [notice] asks it: whether
    [dialog.querySelector(selector)] finds an element in the markup assigned
    to [innerHTML]. *)
Definition Parser : Type := string -> string -> bool.

(** [`#btn${idx}`] *)
Definition button_selector (idx : nat) : string := "#btn" ++ Js.interp_idx idx.

(** The callback of [buttons.forEach] with its lookup: on [null] the
    assignment [button.onclick = ...] throws, which ends the loop. *)
Fixpoint wire_from (found : string -> bool) (prompt : Js.prop) (idx : nat)
    (bs : list Button) (w : Wiring) : Exc Wiring :=
  match bs with
  | [] => Ok w
  | b :: rest =>
      if found (button_selector idx)
      then wire_from found prompt (S idx) rest (wire_button prompt w b idx)
      else Throw (TypeError "Cannot set properties of null (setting 'onclick')")
  end.

(** Lines 96 to 112: [form.onsubmit = ...] throws when there is no form,
    then the loop runs. *)
Definition wire (found : string -> bool) (prompt : Js.prop) (bs : list Button)
    : Exc Wiring :=
  if found "form"
  then wire_from found prompt 0 bs
         {| okButtonIdx := -1; cancelButtonIdx := -1; onclick := [] |}
  else Throw (TypeError "Cannot set properties of null (setting 'onsubmit')").

(** [notice], the wiring standing where the source has it: after the
    template, before the [try]. *)
Definition notice (parse : Parser) (h : Host) (req : Request) (width : Z) (iconSize : Z)
    : Async Result :=
  resolved <- app_icon h (icon req) iconSize ;;
  n <- createElement ;;
  let bs := buttons_or_default (buttons req) in
  let markup := Template.innerHTML width (isError req) (snd resolved) (title req)
                  (fst resolved) (msgs req) (prompt req) bs in
  w <- await (wire (parse markup) (prompt req) bs) ;;
  let dialog := {| node := n;
                   innerHTML := markup;
                   prompt_input := Js.truthy (prompt req);
                   form_onsubmit := close_value (prompt req) (okButtonIdx w);
                   button_onclick := onclick w |} in
  try_finally
    (try_catch
       (appendChild h n ;;; showModal h dialog)
       (fun _ => ret {| which := cancelButtonIdx w; value := EmptyString |}))
    (remove n).

(** [querySelector] finds the form and the button of every index below
    [nbuttons]. *)
Definition elements_found (found : string -> bool) (nbuttons : nat) : bool :=
  found "form" && forallb (fun idx => found (button_selector idx)) (seq 0 nbuttons).

Definition occurs (needle hay : string) : bool :=
  match String.index 0 needle hay with
  | Some _ => true
  | None => false
  end.

(** A parser that does what an HTML parser does with an unclosed
    [<textarea>]: what follows is the text of that element.  It finds a tag
    or an [id] only in the markup before the first [<textarea>]. *)
Definition textarea_parser : Parser :=
  fun markup selector =>
    let parsed := match String.index 0 "<textarea>" markup with
                  | Some k => substring 0 k markup
                  | None => markup
                  end in
    match selector with
    | String "#" id => occurs (Template.attr "id" id) parsed
    | tag => occurs ("<" ++ tag) parsed
    end.

End Dom.

(** The markup of a button element, and its beginning up to the [id]. *)
Definition button_markup (idx : nat) (type variant text : string) : string :=
  "<button id=" ++ Js.dq ++ "btn" ++ Js.interp_idx idx ++ Js.dq
    ++ " type=" ++ Js.dq ++ type ++ Js.dq
    ++ " uxp-variant=" ++ Js.dq ++ variant ++ Js.dq ++ ">" ++ text ++ "</button>".

Definition button_opening (idx : nat) : string :=
  "<button id=" ++ Js.dq ++ "btn" ++ Js.interp_idx idx ++ Js.dq.

Definition is_digit (c : ascii) : bool :=
  Nat.leb 48 (nat_of_ascii c) && Nat.leb (nat_of_ascii c) 57.

Fixpoint all_digits (s : string) : bool :=
  match s with
  | EmptyString => true
  | String c rest => is_digit c && all_digits rest
  end.

(** ** The examples of the specification, run *)

Example confirm_click_ok :
  fst (Variations.confirm (host_without_manifest [Click 1]) "T" "M" None empty_document)
  = Fulfilled {| which := 1; value := EmptyString |}.
Proof. reflexivity. Qed.

Example prompt_type_bob_click_ok :
  fst (Variations.prompt (host_without_manifest [TypeText "Bob"; Click 1])
         "T" "M" (Some "Name") None empty_document)
  = Fulfilled {| which := 1; value := "Bob" |}.
Proof. reflexivity. Qed.

Example alert_typing_without_input :
  fst (Variations.alert (host_without_manifest [TypeText "Bob"; Click 0])
         "T" ["M"] empty_document)
  = Fulfilled {| which := 0; value := EmptyString |}.
Proof. reflexivity. Qed.

Example confirm_wiring :
  let w := wire_buttons None
             [ mkButton (Some "Cancel") (Some "reset") (Some "primary");
               mkButton (Some "OK") (Some "submit") (Some "cta") ] in
  okButtonIdx w = 1%Z /\ cancelButtonIdx w = 0%Z /\ List.length (onclick w) = 2.
Proof. repeat split. Qed.

Example default_footer :
  Template.footer_buttons default_buttons
  = "<button id=" ++ Js.dq ++ "btn0" ++ Js.dq ++ " type=" ++ Js.dq ++ "submit" ++ Js.dq
      ++ " uxp-variant=" ++ Js.dq ++ "cta" ++ Js.dq ++ ">Close</button>".
Proof. reflexivity. Qed.

Example manifest_icon_found :
  let file := mkFile (Ok "{...}") in
  let fs := mkFileSystem (Ok (mkFolder (fun _ => Ok (Some file)))) in
  let h := mkHost (Ok fs) (fun _ => Ok (mkManifest (Some "images/icon.png"))) None [] in
  resolved_icon h (Some "app-icon") 14 = (Some "images/icon.png", 32%Z).
Proof. reflexivity. Qed.

Example still_open_keeps_dialog_attached :
  notice (host_without_manifest [TypeText "Bob"]) (Variations.alert_request "T" ["M"])
    360 14 (mkDocument 3 [1])
  = (Pending, mkDocument 4 [1; 3]).
Proof. reflexivity. Qed.

(** ** Strings *)

Lemma append_nil_r (s : string) : s ++ EmptyString = s.
Proof. induction s as [|c s IH]; simpl; [reflexivity | now rewrite IH]. Qed.

Lemma append_assoc (a b c : string) : (a ++ b) ++ c = a ++ (b ++ c).
Proof. induction a as [|x a IH]; simpl; [reflexivity | now rewrite IH]. Qed.

Lemma contains_refl (s : string) : contains s s.
Proof. exists EmptyString, EmptyString. simpl. now rewrite append_nil_r. Qed.

Lemma contains_app_l (needle a b : string) : contains needle b -> contains needle (a ++ b).
Proof.
  intros (x & y & ->). exists (a ++ x), y. now rewrite append_assoc.
Qed.

Lemma contains_app_r (needle a b : string) : contains needle a -> contains needle (a ++ b).
Proof.
  intros (x & y & ->). exists x, (y ++ b). now rewrite !append_assoc.
Qed.

Lemma contains_line (needle text : string) (indent : nat) :
  contains needle text -> contains needle (Template.line indent text).
Proof.
  intros H. unfold Template.line. now apply contains_app_l, contains_app_r.
Qed.

Lemma substr4_prefix (s : string) :
  String.eqb (Js.substr s 0 4) "http" = String.prefix "http" s.
Proof.
  apply Bool.eq_true_iff_eq.
  rewrite String.eqb_eq, (prefix_correct "http" s).
  unfold Js.substr. simpl String.length. reflexivity.
Qed.

Lemma join_empty_app (xs ys : list string) :
  Js.join EmptyString (xs ++ ys)%list = Js.join EmptyString xs ++ Js.join EmptyString ys.
Proof.
  unfold Js.join.
  induction xs as [|x xs IH]; [reflexivity|].
  destruct xs as [|x' xs].
  - destruct ys as [|y ys]; simpl; [now rewrite append_nil_r | reflexivity].
  - change (String.concat EmptyString ((x :: x' :: xs) ++ ys)%list)
      with (x ++ EmptyString ++ String.concat EmptyString ((x' :: xs) ++ ys)%list).
    rewrite IH. simpl. now rewrite append_assoc.
Qed.

(** [join] around two neighbours: the separator stands between them. *)
Lemma join_neighbours (sep x y : string) (before after : list string) :
  exists pre post,
    Js.join sep (before ++ x :: y :: after)%list = pre ++ (x ++ sep ++ y) ++ post.
Proof.
  unfold Js.join.
  induction before as [|b before (pre & post & IH)].
  - exists EmptyString.
    destruct after as [|a after].
    + exists EmptyString. simpl. now rewrite !append_nil_r.
    + exists (sep ++ String.concat sep (a :: after)).
      cbn [app String.concat]. simpl append. now rewrite !append_assoc.
  - exists (b ++ sep ++ pre), post.
    destruct before as [|b' before]; cbn [app String.concat] in *;
      rewrite IH; now rewrite !append_assoc.
Qed.

(** ** The wiring loop *)

Lemma nth_error_map_from {A B : Type} (f : A -> nat -> B) (l : list A) :
  forall idx i, nth_error (Js.map_from f idx l) i
                = option_map (fun x => f x (idx + i)) (nth_error l i).
Proof.
  induction l as [|x l IH]; intros idx [|i]; simpl; try reflexivity.
  - now rewrite Nat.add_0_r.
  - rewrite IH. now rewrite Nat.add_succ_r.
Qed.

Lemma map_from_split {A B : Type} (f : A -> nat -> B) (l1 l2 : list A) :
  forall idx, Js.map_from f idx (l1 ++ l2)%list
              = (Js.map_from f idx l1 ++ Js.map_from f (idx + List.length l1) l2)%list.
Proof.
  induction l1 as [|x l1 IH]; intros idx; simpl.
  - now rewrite Nat.add_0_r.
  - rewrite IH. now rewrite Nat.add_succ_r.
Qed.

Lemma wire_from_onclick (p : Js.prop) (bs : list Button) :
  forall idx w,
    onclick (Js.forEach_from (wire_button p) idx bs w)
    = (onclick w ++ Js.map_from (fun _ i => click_handler p i) idx bs)%list.
Proof.
  induction bs as [|b bs IH]; intros idx w; simpl.
  - now rewrite app_nil_r.
  - rewrite IH. simpl. now rewrite <- app_assoc.
Qed.

Lemma wire_from_ok (p : Js.prop) (bs : list Button) :
  forall idx w,
    okButtonIdx (Js.forEach_from (wire_button p) idx bs w)
    = scan_last is_ok_button idx bs (okButtonIdx w).
Proof.
  induction bs as [|b bs IH]; intros idx w; simpl; [reflexivity|].
  now rewrite IH.
Qed.

Lemma wire_from_cancel (p : Js.prop) (bs : list Button) :
  forall idx w,
    cancelButtonIdx (Js.forEach_from (wire_button p) idx bs w)
    = scan_last is_cancel_button idx bs (cancelButtonIdx w).
Proof.
  induction bs as [|b bs IH]; intros idx w; simpl; [reflexivity|].
  now rewrite IH.
Qed.

(** What the scan returns: the accumulator when nothing matches, else the
    absolute index of the last match. *)
Lemma scan_last_spec (P : Button -> bool) (bs : list Button) :
  forall idx acc,
    (scan_last P idx bs acc = acc /\
       forall i b, nth_error bs i = Some b -> P b = false)
    \/ (exists i b, scan_last P idx bs acc = Z.of_nat (idx + i) /\
          nth_error bs i = Some b /\ P b = true /\
          forall j b', i < j -> nth_error bs j = Some b' -> P b' = false).
Proof.
  induction bs as [|b bs IH]; intros idx acc; simpl.
  - left. split; [reflexivity|]. intros [|i] b'; discriminate.
  - destruct (IH (S idx) (if P b then Z.of_nat idx else acc))
      as [[Hacc Hnone] | (i & b' & Hz & Hnth & HP & Hlast)].
    + destruct (P b) eqn:HPb.
      * right. exists 0, b. rewrite Hacc, Nat.add_0_r.
        repeat split; try assumption.
        intros [|j] b'' Hlt Hj; [lia|]. now apply (Hnone j).
      * left. split; [assumption|].
        intros [|i] b' Hi; simpl in Hi; [now inversion Hi; subst | now apply (Hnone i)].
    + right. exists (S i), b'. rewrite Hz, Nat.add_succ_r.
      repeat split; try assumption.
      intros [|j] b'' Hlt Hj; [lia|]. apply (Hlast j); [lia | assumption].
Qed.

Lemma okButtonIdx_last (p : Js.prop) (bs : list Button) :
  last_index_of is_ok_button bs (okButtonIdx (wire_buttons p bs)).
Proof.
  unfold wire_buttons, Js.forEach. rewrite wire_from_ok. simpl okButtonIdx.
  destruct (scan_last_spec is_ok_button bs 0 (-1))
    as [[Hacc Hnone] | (i & b & Hz & Hrest)]; [left | right]; eauto.
Qed.

Lemma cancelButtonIdx_last (p : Js.prop) (bs : list Button) :
  last_index_of is_cancel_button bs (cancelButtonIdx (wire_buttons p bs)).
Proof.
  unfold wire_buttons, Js.forEach. rewrite wire_from_cancel. simpl cancelButtonIdx.
  destruct (scan_last_spec is_cancel_button bs 0 (-1))
    as [[Hacc Hnone] | (i & b & Hz & Hrest)]; [left | right]; eauto.
Qed.

Lemma onclick_lookup (p : Js.prop) (bs : list Button) (i : nat) :
  nth_error (onclick (wire_buttons p bs)) i
  = if Nat.ltb i (List.length bs) then Some (click_handler p i) else None.
Proof.
  unfold wire_buttons, Js.forEach. rewrite wire_from_onclick. simpl.
  rewrite nth_error_map_from. simpl.
  destruct (Nat.ltb_spec i (List.length bs)) as [Hlt | Hge].
  - destruct (nth_error bs i) eqn:E; [reflexivity|].
    apply nth_error_None in E. lia.
  - apply nth_error_None in Hge. now rewrite Hge.
Qed.

(** ** The app-icon block *)

(** The block always completes, with a value, and leaves the document alone:
    every error of the lookup is caught. *)
Lemma app_icon_eq (h : Host) (icon : Js.prop) (iconSize : Z) (doc : Document) :
  app_icon h icon iconSize doc = (Fulfilled (resolved_icon h icon iconSize), doc).
Proof.
  unfold resolved_icon, app_icon, AsyncMonad.try_catch, AsyncMonad.bind, AsyncMonad.await.
  destruct (Js.strict_eq icon "app-icon"); [|reflexivity].
  destruct (localFileSystem h) as [fs|e]; [|reflexivity]. simpl.
  destruct (getPluginFolder fs) as [folder|e]; [|reflexivity]. simpl.
  destruct (getEntry folder "manifest.json") as [[file|]|e]; try reflexivity. simpl.
  destruct (read file) as [json|e]; [|reflexivity]. simpl.
  destruct (JSON_parse h json) as [manifest|e]; [|reflexivity]. simpl.
  destruct (Js.truthy (manifest_icon manifest)); reflexivity.
Qed.

(** When the manifest cannot be resolved, the two variables keep the values
    they had: [icon] is still the sentinel. *)
Lemma resolved_icon_unresolved (h : Host) (iconSize : Z) :
  manifest_unresolved h ->
  resolved_icon h (Some "app-icon") iconSize = (Some "app-icon", iconSize).
Proof.
  unfold resolved_icon, app_icon, AsyncMonad.try_catch, AsyncMonad.bind, AsyncMonad.await.
  intros Hfail. simpl Js.strict_eq. cbv iota.
  inversion Hfail as
    [e H1 | fs e H1 H2 | fs folder e H1 H2 H3 | fs folder H1 H2 H3
    | fs folder file e H1 H2 H3 H4 | fs folder file json e H1 H2 H3 H4 H5];
    rewrite H1; simpl; try reflexivity;
    rewrite H2; simpl; try reflexivity;
    rewrite H3; simpl; try reflexivity;
    rewrite H4; simpl; try reflexivity;
    rewrite H5; reflexivity.
Qed.

(** Any icon but the sentinel goes through untouched. *)
Lemma resolved_icon_other (h : Host) (icon : Js.prop) (iconSize : Z) :
  Js.strict_eq icon "app-icon" = false ->
  resolved_icon h icon iconSize = (icon, iconSize).
Proof.
  unfold resolved_icon, app_icon. now intros ->.
Qed.

(** ** [notice], one completion at a time *)

Lemma notice_eq (h : Host) (req : Request) (width iconSize : Z) (doc : Document) :
  notice h req width iconSize doc =
    match appendChild_error h with
    | Some _ => (Fulfilled (dismissed_result req), torn_down doc (children doc))
    | None =>
        match serve (shown_dialog h req width iconSize doc) EmptyString (user h) with
        | Fulfilled r =>
            (Fulfilled r, torn_down doc (children doc ++ [next_node doc])%list)
        | Rejected _ =>
            (Fulfilled (dismissed_result req),
             torn_down doc (children doc ++ [next_node doc])%list)
        | Pending =>
            (Pending, {| next_node := S (next_node doc);
                         children := (children doc ++ [next_node doc])%list |})
        end
    end.
Proof.
  unfold notice, AsyncMonad.bind at 1. rewrite app_icon_eq.
  unfold AsyncMonad.bind at 1, createElement.
  unfold AsyncMonad.try_finally, AsyncMonad.try_catch, AsyncMonad.bind,
    appendChild, showModal, remove, AsyncMonad.ret, shown_dialog, dismissed_result,
    torn_down.
  cbn [node build_dialog next_node children].
  destruct (appendChild_error h) as [e|]; [reflexivity|].
  cbn [next_node children].
  match goal with |- context [serve ?d ?i ?u] => destruct (serve d i u) end;
    reflexivity.
Qed.

(** ** The open modal *)

Section Serve.
Variables (n : nat) (width iconSize : Z) (icon : Js.prop) (req : Request).

Let d : Dialog := build_dialog n width iconSize icon req.
Let bs : list Button := buttons_or_default (buttons req).

Lemma serve_click (input : string) (i : nat) (rest : list Event) :
  i < List.length bs ->
  serve d input (Click i :: rest)
  = Fulfilled (close_value (prompt req) (Z.of_nat i) input).
Proof.
  intros Hi. subst d bs. cbn [serve build_dialog button_onclick].
  rewrite onclick_lookup.
  apply Nat.ltb_lt in Hi. now rewrite Hi.
Qed.

Lemma serve_idle (pre rest : list Event) :
  forall input,
    forallb (idle (List.length bs)) pre = true ->
    serve d input (pre ++ rest)%list
    = serve d (typed (Js.truthy (prompt req)) input pre) rest.
Proof.
  induction pre as [|e pre IH]; intros input Hidle; [reflexivity|].
  simpl in Hidle. apply andb_true_iff in Hidle as [He Hpre].
  destruct e as [text | i | | err]; simpl in He; try discriminate.
  - simpl. now apply IH.
  - cbn [app serve typed]. subst d. cbn [build_dialog button_onclick].
    rewrite onclick_lookup. fold bs.
    apply Nat.leb_le in He.
    destruct (Nat.ltb_spec i (List.length bs)); [lia|].
    now apply IH.
Qed.

Lemma serve_all_idle (events : list Event) (input : string) :
  forallb (idle (List.length bs)) events = true ->
  serve d input events = Pending.
Proof.
  intros H. rewrite <- (app_nil_r events). now rewrite serve_idle.
Qed.

End Serve.

(** Every script either leaves the modal open throughout or has a first
    event that closes it. *)
Lemma first_closing_event (nbuttons : nat) (events : list Event) :
  forallb (idle nbuttons) events = true
  \/ exists pre ev rest,
       events = (pre ++ ev :: rest)%list /\
       forallb (idle nbuttons) pre = true /\ idle nbuttons ev = false.
Proof.
  induction events as [|e events [Hall | (pre & ev & rest & -> & Hpre & Hev)]].
  - now left.
  - destruct (idle nbuttons e) eqn:He.
    + left. simpl. now rewrite He, Hall.
    + right. exists [], e, events. auto.
  - destruct (idle nbuttons e) eqn:He.
    + right. exists (e :: pre), ev, rest. simpl. now rewrite He, Hpre.
    + right. exists [], e, (pre ++ ev :: rest)%list. auto.
Qed.

Lemma serve_closing (n : nat) (width iconSize : Z) (icon : Js.prop) (req : Request)
    (pre rest : list Event) (ev : Event) :
  let bs := buttons_or_default (buttons req) in
  let text := typed (Js.truthy (prompt req)) EmptyString pre in
  forallb (idle (List.length bs)) pre = true ->
  idle (List.length bs) ev = false ->
  serve (build_dialog n width iconSize icon req) EmptyString (pre ++ ev :: rest)%list
  = match ev with
    | Click i => Fulfilled (close_value (prompt req) (Z.of_nat i) text)
    | Dismiss err => Rejected err
    | _ => Fulfilled (close_value (prompt req)
                        (okButtonIdx (wire_buttons (prompt req) bs)) text)
    end.
Proof.
  intros bs text Hpre Hev. rewrite serve_idle by exact Hpre. fold text.
  destruct ev as [t | i | | err]; simpl in Hev; try discriminate.
  - apply serve_click. apply Nat.leb_gt in Hev. exact Hev.
  - reflexivity.
  - reflexivity.
Qed.

(** ** Where the parts of the template sit in [innerHTML] *)

Lemma innerHTML_header (width iconSize : Z) (isError : bool) (title : string)
    (icon prompt : Js.prop) (msgs : list string) (bs : list Button) :
  contains (Template.header title icon)
    (Template.innerHTML width isError iconSize title icon msgs prompt bs).
Proof.
  unfold Template.innerHTML, Template.form.
  apply contains_app_l, contains_app_l, contains_app_r, contains_app_l, contains_app_r.
  apply contains_refl.
Qed.

Lemma innerHTML_messages (width iconSize : Z) (isError : bool) (title : string)
    (icon prompt : Js.prop) (msgs : list string) (bs : list Button) :
  contains (Template.messages msgs)
    (Template.innerHTML width isError iconSize title icon msgs prompt bs).
Proof.
  unfold Template.innerHTML, Template.form.
  apply contains_app_l, contains_app_l, contains_app_r.
  do 2 apply contains_app_l. apply contains_app_r, contains_line, contains_refl.
Qed.

Lemma innerHTML_footer_buttons (width iconSize : Z) (isError : bool) (title : string)
    (icon prompt : Js.prop) (msgs : list string) (bs : list Button) :
  contains (Template.footer_buttons bs)
    (Template.innerHTML width isError iconSize title icon msgs prompt bs).
Proof.
  unfold Template.innerHTML, Template.form, Template.footer.
  apply contains_app_l, contains_app_l, contains_app_r.
  do 4 apply contains_app_l. apply contains_app_r.
  apply contains_app_l, contains_app_r, contains_line, contains_refl.
Qed.

Lemma contains_trans (a b c : string) : contains a b -> contains b c -> contains a c.
Proof.
  intros Hab (x & y & ->). now apply contains_app_l, contains_app_r.
Qed.

Lemma header_img (title src : string) :
  Js.truthy (Some src) = true ->
  contains (img_tag src) (Template.header title (Some src)).
Proof.
  intros Hsrc. unfold Template.header, Template.img. rewrite Hsrc.
  apply contains_app_l, contains_app_l, contains_app_r, contains_line.
  unfold img_tag, Template.attr. simpl Js.interp.
  exists EmptyString, EmptyString. cbn [append]. rewrite append_nil_r.
  now rewrite !append_assoc.
Qed.

(** * The claims *)

(** ** C1: the default button list *)

(** C1, as stated, fails: a call that supplies a buttons list of length zero
    does not fall back to the Close button.  With [buttons: []] the markup
    differs from the one of the default list, and submitting the form
    resolves with [which = -1] where the default list gives [0]. *)
Lemma C1_empty_buttons_counterexample :
  let req := mkRequest "T" None ["M"] None false (Some []) in
  let h := host_without_manifest [Submit] in
  buttons req = Some [] /\
  notice h req 360 14 empty_document
    = (Fulfilled {| which := -1; value := EmptyString |}, mkDocument 1 []) /\
  notice h (with_buttons req (Some default_buttons)) 360 14 empty_document
    = (Fulfilled {| which := 0; value := EmptyString |}, mkDocument 1 []) /\
  Template.footer_buttons (buttons_or_default (buttons req)) = EmptyString /\
  innerHTML (shown_dialog h req 360 14 empty_document)
    <> innerHTML (shown_dialog h (with_buttons req (Some default_buttons)) 360 14
                    empty_document).
Proof.
  cbv zeta. repeat split; try (vm_compute; reflexivity).
  vm_compute. discriminate.
Qed.

(** C1, amended: when the caller leaves the buttons list out (the property is
    undefined), the dialog is the one of the default single Close button,
    whose type is submit and whose variant is cta: same element, same
    handlers, same completion of the call as with the default list passed
    explicitly. *)
Theorem C1_omitted_buttons_default (h : Host) (req : Request) (width iconSize : Z)
    (doc : Document) :
  buttons req = None ->
  buttons_or_default (buttons req)
    = [ mkButton (Some "Close") (Some "submit") (Some "cta") ] /\
  shown_dialog h req width iconSize doc
    = shown_dialog h (with_buttons req (Some default_buttons)) width iconSize doc /\
  notice h req width iconSize doc
    = notice h (with_buttons req (Some default_buttons)) width iconSize doc.
Proof.
  destruct req as [t i m p e b]. simpl. intros ->. repeat split.
Qed.

Lemma C1_omitted_buttons_default_witness :
  let req := mkRequest "T" None ["M"] None false None in
  let h := host_without_manifest [Submit] in
  buttons req = None /\
  notice h req 360 14 empty_document
    = notice h (with_buttons req (Some default_buttons)) 360 14 empty_document.
Proof.
  cbv zeta. split; [reflexivity|].
  apply (C1_omitted_buttons_default (host_without_manifest [Submit])
           (mkRequest "T" None ["M"] None false None) 360 14 empty_document).
  reflexivity.
Defined.

(** ** C2: the app-icon sentinel without a manifest *)

(** C2 at the failing input: with [icon: "app-icon"] and a manifest that
    cannot be resolved the call does not reject, but the [catch] leaves the
    sentinel in [icon], and the header is rendered with an image whose source
    is the sentinel itself. *)
Theorem C2_unresolved_manifest_renders_sentinel (h : Host) (req : Request)
    (width iconSize : Z) (doc : Document) :
  icon req = Some "app-icon" ->
  manifest_unresolved h ->
  (forall e, fst (notice h req width iconSize doc) <> Rejected e) /\
  resolved_icon h (icon req) iconSize = (Some "app-icon", iconSize) /\
  contains (Template.header (title req) (Some "app-icon"))
    (innerHTML (shown_dialog h req width iconSize doc)) /\
  contains (img_tag "app-icon") (innerHTML (shown_dialog h req width iconSize doc)).
Proof.
  intros Hicon Hfail.
  assert (Hres : resolved_icon h (icon req) iconSize = (Some "app-icon", iconSize))
    by (rewrite Hicon; now apply resolved_icon_unresolved).
  assert (Hhead : contains (Template.header (title req) (Some "app-icon"))
                    (innerHTML (shown_dialog h req width iconSize doc))).
  { unfold shown_dialog. rewrite Hres. cbn [fst snd build_dialog innerHTML].
    apply innerHTML_header. }
  repeat split; try assumption.
  - intros e. rewrite notice_eq.
    destruct (appendChild_error h); [discriminate|].
    destruct (serve _ _ _); discriminate.
  - eapply contains_trans; [|exact Hhead]. now apply header_img.
Qed.

Lemma C2_unresolved_manifest_renders_sentinel_witness :
  let req := Variations.alertWithAppIcon_request "About" ["M"] in
  let h := host_without_manifest [Click 0] in
  icon req = Some "app-icon" /\
  contains (img_tag "app-icon")
    (innerHTML (shown_dialog h req default_width default_iconSize empty_document)).
Proof.
  cbv zeta. split; [reflexivity|].
  apply (C2_unresolved_manifest_renders_sentinel (host_without_manifest [Click 0])
           (Variations.alertWithAppIcon_request "About" ["M"])
           default_width default_iconSize empty_document);
    [reflexivity | eapply no_file_system; reflexivity].
Defined.

(** ** C5: messages *)

(** C5: every entry of the messages list is rendered, in place, as a
    hyperlink whose target and text are the message itself when the message
    begins with [http], and as a paragraph holding the message otherwise; the
    renderings follow each other without a separator, inside the markup of
    the dialog. *)
Theorem C5_message_rendering (before after : list string) (msg : string) :
  Template.message msg
    = (if String.prefix "http" msg then hyperlink msg msg else paragraph msg) /\
  Template.messages (before ++ msg :: after)%list
    = Template.messages before
        ++ (if String.prefix "http" msg then hyperlink msg msg else paragraph msg)
        ++ Template.messages after /\
  forall (h : Host) (req : Request) (width iconSize : Z) (doc : Document),
    contains (Template.messages (msgs req))
      (innerHTML (shown_dialog h req width iconSize doc)).
Proof.
  assert (Hmsg : Template.message msg
            = if String.prefix "http" msg then hyperlink msg msg else paragraph msg).
  { unfold Template.message. rewrite substr4_prefix.
    destruct (String.prefix "http" msg); [|reflexivity].
    unfold hyperlink, Template.attr. cbn [append]. now rewrite !append_assoc. }
  split; [exact Hmsg|]. split.
  - unfold Template.messages. rewrite map_app, join_empty_app.
    change (map Template.message (msg :: after))
      with ([Template.message msg] ++ map Template.message after)%list.
    rewrite join_empty_app, Hmsg. reflexivity.
  - intros h req width iconSize doc. apply innerHTML_messages.
Qed.

(** ** C10: the footer *)

(** C10: the footer interpolates the array of button elements as it is, so
    any two consecutive buttons are rendered with a comma between them, in
    the footer and so in the markup of the dialog; the messages are joined
    with the empty string instead. *)
Theorem C10_footer_comma_separated (before after : list Button) (b b' : Button) :
  let bs := (before ++ b :: b' :: after)%list in
  let i := List.length before in
  Template.footer_buttons bs = Js.join "," (Js.mapi Template.button bs) /\
  contains (Template.button b i ++ "," ++ Template.button b' (S i))
    (Template.footer_buttons bs) /\
  (forall (h : Host) (req : Request) (width iconSize : Z) (doc : Document),
     buttons req = Some bs ->
     contains (Template.button b i ++ "," ++ Template.button b' (S i))
       (innerHTML (shown_dialog h req width iconSize doc))) /\
  (forall m m' : string,
     Template.messages [m; m'] = Template.message m ++ Template.message m').
Proof.
  intros bs i.
  assert (Hfoot : contains (Template.button b i ++ "," ++ Template.button b' (S i))
                    (Template.footer_buttons bs)).
  { unfold Template.footer_buttons, Js.interp_array, Js.mapi. subst bs.
    rewrite map_from_split. cbn [Js.map_from Nat.add]. fold i.
    destruct (join_neighbours "," (Template.button b i) (Template.button b' (S i))
                (Js.map_from Template.button 0 before)
                (Js.map_from Template.button (S (S i)) after)) as (pre & post & E).
    exists pre, post. exact E. }
  repeat split.
  - exact Hfoot.
  - intros h req width iconSize doc Hbs.
    eapply contains_trans; [exact Hfoot|].
    unfold shown_dialog. cbn [build_dialog innerHTML]. rewrite Hbs.
    apply innerHTML_footer_buttons.
Qed.

Lemma C10_footer_comma_separated_witness :
  let cancel := mkButton (Some "Cancel") (Some "reset") (Some "primary") in
  let ok := mkButton (Some "OK") (Some "submit") (Some "cta") in
  let req := Variations.confirm_request "T" "M" None in
  buttons req = Some [cancel; ok] /\
  contains (Template.button cancel 0 ++ "," ++ Template.button ok 1)
    (innerHTML (shown_dialog (host_without_manifest []) req default_width
                  default_iconSize empty_document)).
Proof.
  cbv zeta. split; [reflexivity|].
  apply (C10_footer_comma_separated []
           [] (mkButton (Some "Cancel") (Some "reset") (Some "primary"))
           (mkButton (Some "OK") (Some "submit") (Some "cta"))).
  reflexivity.
Defined.

(** ** C3: form submission *)

(** C3, as stated, fails: with two submit-role buttons the first one is at
    index 0, yet submitting the form resolves with the index of the second. *)
Lemma C3_first_submit_counterexample :
  let save := mkButton (Some "Save") (Some "submit") (Some "primary") in
  let publish := mkButton (Some "Publish") (Some "submit") (Some "cta") in
  let req := mkRequest "T" None ["M"] None false (Some [save; publish]) in
  let h := host_without_manifest [Submit] in
  first_index_of is_ok_button (buttons_or_default (buttons req)) 0 /\
  fst (notice h req 360 14 empty_document)
    = Fulfilled {| which := 1; value := EmptyString |}.
Proof.
  cbv zeta. split; [|reflexivity].
  exists 0, (mkButton (Some "Save") (Some "submit") (Some "primary")).
  repeat split. intros j b' Hj. inversion Hj.
Qed.

(** C3, amended: form submission resolves with [which] equal to the index of
    the last button whose type is submit or whose variant is cta ([-1] when
    there is none), and [value] equal to the current text of the input when a
    prompt was requested, the empty string otherwise. *)
Theorem C3_submit_resolves_with_last_ok_button (h : Host) (req : Request)
    (width iconSize : Z) (doc : Document) (pre rest : list Event) :
  let bs := buttons_or_default (buttons req) in
  let idx := okButtonIdx (wire_buttons (prompt req) bs) in
  appendChild_error h = None ->
  user h = (pre ++ Submit :: rest)%list ->
  forallb (idle (List.length bs)) pre = true ->
  last_index_of is_ok_button bs idx /\
  fst (notice h req width iconSize doc)
    = Fulfilled {| which := idx;
                   value := if Js.truthy (prompt req)
                            then typed true EmptyString pre
                            else EmptyString |}.
Proof.
  intros bs idx Happend Huser Hpre.
  split; [apply okButtonIdx_last|].
  rewrite notice_eq, Happend, Huser. unfold shown_dialog.
  rewrite serve_closing by (exact Hpre || reflexivity).
  unfold close_value. fold bs. fold idx.
  destruct (Js.truthy (prompt req)); reflexivity.
Qed.

Lemma C3_submit_resolves_with_last_ok_button_witness :
  let h := host_without_manifest [TypeText "Bo"; TypeText "Bob"; Submit] in
  appendChild_error h = None /\
  user h = ([TypeText "Bo"; TypeText "Bob"] ++ Submit :: [])%list /\
  forallb (idle 2) [TypeText "Bo"; TypeText "Bob"] = true /\
  fst (Variations.prompt h "T" "M" (Some "Name") None empty_document)
    = Fulfilled {| which := 1; value := "Bob" |}.
Proof.
  cbv zeta. repeat (split; [reflexivity|]).
  exact (proj2 (C3_submit_resolves_with_last_ok_button
                  (host_without_manifest [TypeText "Bo"; TypeText "Bob"; Submit])
                  (Variations.prompt_request "T" "M" (Some "Name") None)
                  default_width default_iconSize empty_document
                  [TypeText "Bo"; TypeText "Bob"] [] eq_refl eq_refl eq_refl)).
Defined.

(** ** C4: the [value] field *)

(** C4, as stated, fails: in [prompt] the Cancel button has type reset and is
    no submit-role button, yet activating it after typing resolves with the
    typed text. *)
Lemma C4_cancel_keeps_typed_text_counterexample :
  let h := host_without_manifest [TypeText "Bob"; Click 0] in
  let req := Variations.prompt_request "T" "M" (Some "Name") None in
  nth_error (buttons_or_default (buttons req)) 0
    = Some (mkButton (Some "Cancel") (Some "reset") (Some "primary")) /\
  is_ok_button (mkButton (Some "Cancel") (Some "reset") (Some "primary")) = false /\
  Variations.prompt h "T" "M" (Some "Name") None empty_document
    = (Fulfilled {| which := 0; value := "Bob" |}, mkDocument 1 []).
Proof.
  cbv zeta. repeat split.
Qed.

(** C4, amended: the [value] field of a result is the empty string unless a
    prompt placeholder was set and a handler closed the dialog, the click
    handler of any button, submit-role or not, or the submit handler of the
    form; it is then the current text of the input.  In particular activating
    any button, such as the reset-type Cancel button of [prompt], resolves
    with the text typed so far when a prompt was requested. *)
Theorem C4_value_is_input_text_of_closing_handler (h : Host) (req : Request)
    (width iconSize : Z) (doc : Document) :
  let bs := buttons_or_default (buttons req) in
  (forall r : Result,
     fst (notice h req width iconSize doc) = Fulfilled r ->
     value r = EmptyString
     \/ (Js.truthy (prompt req) = true /\ appendChild_error h = None /\
         exists pre ev rest,
           user h = (pre ++ ev :: rest)%list /\
           forallb (idle (List.length bs)) pre = true /\
           (ev = Submit \/ exists i, ev = Click i /\ i < List.length bs) /\
           value r = typed true EmptyString pre)) /\
  (forall (pre rest : list Event) (i : nat),
     appendChild_error h = None ->
     user h = (pre ++ Click i :: rest)%list ->
     forallb (idle (List.length bs)) pre = true ->
     i < List.length bs ->
     fst (notice h req width iconSize doc)
       = Fulfilled {| which := Z.of_nat i;
                      value := if Js.truthy (prompt req)
                               then typed true EmptyString pre
                               else EmptyString |}).
Proof.
  intros bs. split.
  - intros r. rewrite notice_eq.
    destruct (appendChild_error h) as [e|] eqn:Happend.
    { simpl. intros [= <-]. now left. }
    destruct (first_closing_event (List.length bs) (user h))
      as [Hall | (pre & ev & rest & Huser & Hpre & Hev)].
    + unfold shown_dialog. rewrite serve_all_idle by exact Hall. discriminate.
    + unfold shown_dialog. rewrite Huser, serve_closing by assumption.
      destruct (Js.truthy (prompt req)) eqn:Hprompt.
      * destruct ev as [t | i | | err]; simpl in Hev; try discriminate;
          simpl; intros [= <-].
        -- right. repeat split. exists pre, (Click i), rest.
           repeat split; try assumption.
           ++ right. exists i. split; [reflexivity|]. now apply Nat.leb_gt.
           ++ unfold close_value. now rewrite Hprompt.
        -- right. repeat split. exists pre, Submit, rest.
           repeat split; try assumption.
           ++ now left.
           ++ unfold close_value. now rewrite Hprompt.
        -- now left.
      * destruct ev as [t | i | | err]; simpl in Hev; try discriminate;
          simpl; intros [= <-]; left; unfold close_value; simpl;
          now rewrite ?Hprompt.
  - intros pre rest i Happend Huser Hpre Hi.
    rewrite notice_eq, Happend, Huser. unfold shown_dialog.
    rewrite serve_closing by (exact Hpre || (apply Nat.leb_gt; exact Hi)).
    unfold close_value. destruct (Js.truthy (prompt req)); reflexivity.
Qed.

Lemma C4_value_is_input_text_of_closing_handler_witness :
  let h := host_without_manifest [TypeText "Bob"; Click 0] in
  appendChild_error h = None /\
  user h = ([TypeText "Bob"] ++ Click 0 :: [])%list /\
  forallb (idle 2) [TypeText "Bob"] = true /\
  0 < 2 /\
  fst (Variations.prompt h "T" "M" (Some "Name") None empty_document)
    = Fulfilled {| which := 0; value := "Bob" |}.
Proof.
  cbv zeta. repeat (split; [reflexivity || lia|]).
  exact (proj2 (C4_value_is_input_text_of_closing_handler
                  (host_without_manifest [TypeText "Bob"; Click 0])
                  (Variations.prompt_request "T" "M" (Some "Name") None)
                  default_width default_iconSize empty_document)
           [TypeText "Bob"] [] 0 eq_refl eq_refl eq_refl (Nat.lt_0_succ 1)).
Defined.

(** ** C6 and C7: failure of the modal-display step *)

Lemma notice_display_failure (h : Host) (req : Request) (width iconSize : Z)
    (doc : Document) :
  modal_display_fails h (List.length (buttons_or_default (buttons req))) ->
  fst (notice h req width iconSize doc) = Fulfilled (dismissed_result req).
Proof.
  intros [(err & Happend) | (Happend & pre & err & rest & Huser & Hpre)];
    rewrite notice_eq, Happend; [reflexivity|].
  unfold shown_dialog. rewrite Huser.
  rewrite serve_closing by (exact Hpre || reflexivity). reflexivity.
Qed.

(** C6: when the modal is dismissed without a button being activated
    ([appendChild] or [showModal] fails), the call resolves with [which]
    equal to the index of the last reset-type button, [-1] when there is
    none, and with the empty string as [value]. *)
Theorem C6_dismissal_resolves_with_last_reset_button (h : Host) (req : Request)
    (width iconSize : Z) (doc : Document) :
  let bs := buttons_or_default (buttons req) in
  let idx := cancelButtonIdx (wire_buttons (prompt req) bs) in
  modal_display_fails h (List.length bs) ->
  last_index_of is_cancel_button bs idx /\
  fst (notice h req width iconSize doc)
    = Fulfilled {| which := idx; value := EmptyString |}.
Proof.
  intros bs idx Hfail. split; [apply cancelButtonIdx_last|].
  now apply notice_display_failure.
Qed.

Lemma C6_dismissal_resolves_with_last_reset_button_witness :
  let h := host_without_manifest [TypeText "Bob"; Dismiss (HostError "escape")] in
  modal_display_fails h 2 /\
  fst (Variations.prompt h "T" "M" (Some "Name") None empty_document)
    = Fulfilled {| which := 0; value := EmptyString |} /\
  fst (Variations.alert h "T" ["M"] empty_document)
    = Fulfilled {| which := -1; value := EmptyString |}.
Proof.
  cbv zeta.
  assert (Hfail : forall nbuttons,
            modal_display_fails
              (host_without_manifest [TypeText "Bob"; Dismiss (HostError "escape")])
              nbuttons).
  { intros nbuttons. right. split; [reflexivity|].
    exists [TypeText "Bob"], (HostError "escape"), []. split; reflexivity. }
  split; [apply Hfail|]. split.
  - exact (proj2 (C6_dismissal_resolves_with_last_reset_button _
                    (Variations.prompt_request "T" "M" (Some "Name") None)
                    default_width default_iconSize empty_document (Hfail 2))).
  - exact (proj2 (C6_dismissal_resolves_with_last_reset_button _
                    (Variations.alert_request "T" ["M"])
                    default_width default_iconSize empty_document (Hfail 1))).
Defined.

(** *** The lookups of [querySelector] *)

Lemma Dom_wire_from_found (found : string -> bool) (p : Js.prop) (bs : list Button) :
  forall idx w,
    forallb (fun i => found (Dom.button_selector i)) (seq idx (List.length bs)) = true ->
    Dom.wire_from found p idx bs w = Ok (Js.forEach_from (wire_button p) idx bs w).
Proof.
  induction bs as [|b bs IH]; intros idx w Hall; simpl in *; [reflexivity|].
  apply andb_true_iff in Hall as [-> Hrest]. now apply IH.
Qed.

Lemma Dom_wire_from_missing (found : string -> bool) (p : Js.prop) (bs : list Button) :
  forall idx w,
    forallb (fun i => found (Dom.button_selector i)) (seq idx (List.length bs)) = false ->
    exists msg, Dom.wire_from found p idx bs w = Throw (TypeError msg).
Proof.
  induction bs as [|b bs IH]; intros idx w Hmiss; simpl in *; [discriminate|].
  destruct (found (Dom.button_selector idx)); simpl in Hmiss.
  - now apply IH.
  - now eexists.
Qed.

Lemma Dom_wire_found (found : string -> bool) (p : Js.prop) (bs : list Button) :
  Dom.elements_found found (List.length bs) = true ->
  Dom.wire found p bs = Ok (wire_buttons p bs).
Proof.
  unfold Dom.elements_found, Dom.wire. intros H.
  apply andb_true_iff in H as [-> Hall]. now apply Dom_wire_from_found.
Qed.

Lemma Dom_wire_missing (found : string -> bool) (p : Js.prop) (bs : list Button) :
  Dom.elements_found found (List.length bs) = false ->
  exists msg, Dom.wire found p bs = Throw (TypeError msg).
Proof.
  unfold Dom.elements_found, Dom.wire. intros H.
  destruct (found "form"); simpl in H; [now apply Dom_wire_from_missing | now eexists].
Qed.

(** When [querySelector] finds the elements of the template, the call is the
    one [notice] describes. *)
Lemma Dom_notice_found (parse : Dom.Parser) (h : Host) (req : Request)
    (width iconSize : Z) (doc : Document) :
  Dom.elements_found (parse (innerHTML (shown_dialog h req width iconSize doc)))
    (List.length (buttons_or_default (buttons req))) = true ->
  Dom.notice parse h req width iconSize doc = notice h req width iconSize doc.
Proof.
  intros Hfound. unfold Dom.notice, notice, AsyncMonad.bind at 1 5.
  rewrite app_icon_eq.
  unfold AsyncMonad.bind at 1 4, createElement.
  unfold shown_dialog in Hfound. cbn [build_dialog innerHTML] in Hfound.
  unfold AsyncMonad.bind at 1. rewrite (Dom_wire_found _ _ _ Hfound).
  reflexivity.
Qed.

(** When an element is missing, the assignment of its handler throws before
    the [try]: the promise is rejected, and the dialog, created already, was
    never attached. *)
Lemma Dom_notice_missing (parse : Dom.Parser) (h : Host) (req : Request)
    (width iconSize : Z) (doc : Document) :
  Dom.elements_found (parse (innerHTML (shown_dialog h req width iconSize doc)))
    (List.length (buttons_or_default (buttons req))) = false ->
  exists msg,
    Dom.notice parse h req width iconSize doc
    = (Rejected (TypeError msg), mkDocument (S (next_node doc)) (children doc)).
Proof.
  intros Hmiss. unfold Dom.notice, AsyncMonad.bind at 1.
  rewrite app_icon_eq.
  unfold AsyncMonad.bind at 1, createElement.
  unfold shown_dialog in Hmiss. cbn [build_dialog innerHTML] in Hmiss.
  destruct (Dom_wire_missing _ (prompt req) _ Hmiss) as (msg & Hwire).
  exists msg. unfold AsyncMonad.bind at 1. rewrite Hwire. reflexivity.
Qed.

(** C7, as stated, fails: a title is a string like any other, and with the
    title [<textarea>] the markup that follows it is text, no button is
    found, and the assignment of the first click handler, which stands before
    the [try], throws: the promise is rejected. *)
Lemma C7_markup_in_title_counterexample :
  let req := Variations.alert_request "<textarea>" ["M"] in
  let h := host_without_manifest [Click 0] in
  Dom.notice Dom.textarea_parser h req default_width default_iconSize empty_document
  = (Rejected (TypeError "Cannot set properties of null (setting 'onclick')"),
     mkDocument 1 []).
Proof. vm_compute. reflexivity. Qed.

(** C7, amended: for every request in whose markup [querySelector] finds the
    form and every button, the promise of [notice] never rejects, and every
    failure of the modal-display step gives the result of the [catch]
    branch; when one of these elements is not found, the promise is rejected
    with the TypeError of the handler assignment. *)
Theorem C7_display_failures_never_reject (parse : Dom.Parser) (h : Host)
    (req : Request) (width iconSize : Z) (doc : Document) :
  let nbuttons := List.length (buttons_or_default (buttons req)) in
  let found := parse (innerHTML (shown_dialog h req width iconSize doc)) in
  (Dom.elements_found found nbuttons = true ->
   (forall e, fst (Dom.notice parse h req width iconSize doc) <> Rejected e) /\
   (modal_display_fails h nbuttons ->
    fst (Dom.notice parse h req width iconSize doc)
    = Fulfilled (dismissed_result req))) /\
  (Dom.elements_found found nbuttons = false ->
   exists msg,
     fst (Dom.notice parse h req width iconSize doc) = Rejected (TypeError msg)).
Proof.
  intros nbuttons found. split.
  - intros Hfound. rewrite (Dom_notice_found parse h req width iconSize doc Hfound).
    split; [|apply notice_display_failure].
    intros e. rewrite notice_eq.
    destruct (appendChild_error h); [discriminate|].
    destruct (serve _ _ _); discriminate.
  - intros Hmiss.
    destruct (Dom_notice_missing parse h req width iconSize doc Hmiss) as (msg & E).
    exists msg. now rewrite E.
Qed.

Lemma C7_display_failures_never_reject_witness :
  let req := Variations.confirm_request "T" "M" None in
  Dom.elements_found
    (Dom.textarea_parser
       (innerHTML (shown_dialog host_refusing_append req default_width
                     default_iconSize empty_document))) 2 = true /\
  modal_display_fails host_refusing_append 2 /\
  fst (Dom.notice Dom.textarea_parser host_refusing_append req default_width
         default_iconSize empty_document)
    = Fulfilled {| which := 0; value := EmptyString |}.
Proof.
  cbv zeta.
  assert (Hfound : Dom.elements_found
                     (Dom.textarea_parser
                        (innerHTML (shown_dialog host_refusing_append
                                      (Variations.confirm_request "T" "M" None)
                                      default_width default_iconSize empty_document)))
                     2 = true) by (vm_compute; reflexivity).
  assert (Hfail : modal_display_fails host_refusing_append 2)
    by (left; eexists; reflexivity).
  split; [exact Hfound|]. split; [exact Hfail|].
  exact (proj2 (proj1 (C7_display_failures_never_reject Dom.textarea_parser
                         host_refusing_append
                         (Variations.confirm_request "T" "M" None)
                         default_width default_iconSize empty_document) Hfound)
           Hfail).
Defined.

(** ** C8: teardown *)

Lemma not_in_torn_down (doc : Document) (attached : list nat) :
  ~ In (next_node doc) (children (torn_down doc attached)).
Proof.
  unfold torn_down. simpl. intros Hin. apply filter_In in Hin as [_ Hneq].
  now rewrite Nat.eqb_refl in Hneq.
Qed.

(** C8: once the call has completed, through a button result or through the
    dismissal path, the dialog is not among the children of the document, and
    the other children are as before; and the call does complete as soon as
    [appendChild] throws or some event closes the modal. *)
Theorem C8_dialog_removed_after_resolution (h : Host) (req : Request)
    (width iconSize : Z) (doc : Document) :
  let bs := buttons_or_default (buttons req) in
  let completion := fst (notice h req width iconSize doc) in
  let doc' := snd (notice h req width iconSize doc) in
  (completion <> Pending ->
   ~ In (next_node doc) (children doc') /\
   children doc'
     = filter (fun m => negb (Nat.eqb m (next_node doc))) (children doc)) /\
  ((exists err, appendChild_error h = Some err)
   \/ forallb (idle (List.length bs)) (user h) = false ->
   exists r, completion = Fulfilled r).
Proof.
  intros bs completion doc'. subst completion doc'. rewrite notice_eq.
  assert (Hfilter : forall l,
            children (torn_down doc (l ++ [next_node doc])%list)
            = filter (fun m => negb (Nat.eqb m (next_node doc))) l).
  { intros l. unfold torn_down. simpl. rewrite filter_app. simpl.
    rewrite Nat.eqb_refl. simpl. apply app_nil_r. }
  split.
  - destruct (appendChild_error h) as [e|].
    { intros _. split; [apply not_in_torn_down | reflexivity]. }
    destruct (serve _ _ _); simpl fst; simpl snd; intros Hdone;
      try (split; [apply not_in_torn_down | apply Hfilter]).
    now contradiction Hdone.
  - intros [(err & Happend) | Hclosing].
    { rewrite Happend. now eexists. }
    destruct (appendChild_error h) as [e|]; [now eexists|].
    destruct (first_closing_event (List.length bs) (user h))
      as [Hall | (pre & ev & rest & Huser & Hpre & Hev)];
      [fold bs in Hclosing; congruence|].
    unfold shown_dialog. rewrite Huser, serve_closing by assumption.
    destruct ev; now eexists.
Qed.

Lemma C8_dialog_removed_after_resolution_witness :
  let h := host_without_manifest [Click 1] in
  let doc := mkDocument 7 [2; 5] in
  fst (Variations.confirm h "T" "M" None doc) <> Pending /\
  children (snd (Variations.confirm h "T" "M" None doc)) = [2; 5].
Proof.
  cbv zeta.
  assert (Hdone : fst (Variations.confirm (host_without_manifest [Click 1])
                         "T" "M" None (mkDocument 7 [2; 5])) <> Pending)
    by (vm_compute; discriminate).
  split; [exact Hdone|].
  exact (proj2 (proj1 (C8_dialog_removed_after_resolution
                         (host_without_manifest [Click 1])
                         (Variations.confirm_request "T" "M" None)
                         default_width default_iconSize (mkDocument 7 [2; 5]))
                  Hdone)).
Defined.

(** ** C9: the OK button of [warning] *)

(** C9: in [warning] the button at index 0 has type submit and is the
    submit-role button, the button at index 1 has type button and is not;
    activating the latter runs its click handler, which prevents the default
    action and closes the dialog with [which = 1], so the call resolves with
    index 1 and not with the index 0 form submission would give. *)
Theorem C9_warning_ok_resolves_by_click_handler (h : Host) (title msg : string)
    (labels : option (list string)) (doc : Document) (pre rest : list Event) :
  let req := Variations.warning_request title msg labels in
  let dialog := shown_dialog h req default_width default_iconSize doc in
  appendChild_error h = None ->
  user h = (pre ++ Click 1 :: rest)%list ->
  forallb (idle 2) pre = true ->
  map type (buttons_or_default (buttons req)) = [Some "submit"; Some "button"] /\
  map is_ok_button (buttons_or_default (buttons req)) = [true; false] /\
  (forall input,
     option_map (fun handler => handler input) (nth_error (button_onclick dialog) 1)
     = Some {| defaultPrevented := true;
               closedWith := Some {| which := 1; value := EmptyString |} |}) /\
  (forall input, form_onsubmit dialog input = {| which := 0; value := EmptyString |}) /\
  fst (Variations.warning h title msg labels doc)
    = Fulfilled {| which := 1; value := EmptyString |}.
Proof.
  intros req dialog Happend Huser Hpre. repeat split.
  unfold Variations.warning. rewrite notice_eq, Happend, Huser.
  unfold shown_dialog. rewrite serve_closing by (exact Hpre || reflexivity).
  reflexivity.
Qed.

Lemma C9_warning_ok_resolves_by_click_handler_witness :
  let h := host_without_manifest [Click 5; Click 1] in
  appendChild_error h = None /\
  user h = ([Click 5] ++ Click 1 :: [])%list /\
  forallb (idle 2) [Click 5] = true /\
  fst (Variations.warning h "Reset Preferences?" "Are you sure?"
         (Some ["Cancel"; "Reset Preferences"]) empty_document)
    = Fulfilled {| which := 1; value := EmptyString |}.
Proof.
  cbv zeta. repeat (split; [reflexivity|]).
  apply (C9_warning_ok_resolves_by_click_handler
           (host_without_manifest [Click 5; Click 1])
           "Reset Preferences?" "Are you sure?" (Some ["Cancel"; "Reset Preferences"])
           empty_document [Click 5] [] eq_refl eq_refl eq_refl).
Defined.

(** * Further properties of the code *)

(** ** Results of [notice] *)

(** An index the wiring loop leaves in a variable is [-1] or the index of a
    button. *)
Lemma last_index_in_range (P : Button -> bool) (bs : list Button) (z : Z) :
  last_index_of P bs z ->
  (z = -1 \/ 0 <= z < Z.of_nat (List.length bs))%Z.
Proof.
  intros [[-> _] | (i & b & -> & Hnth & _)]; [now left | right].
  assert (i < List.length bs) by (apply nth_error_Some; congruence). lia.
Qed.

(** The three ways a call of [notice] is fulfilled: the [catch] branch, the
    submit handler of the form, the click handler of a button. *)
Lemma notice_fulfilled_cases (h : Host) (req : Request) (width iconSize : Z)
    (doc : Document) (r : Result) :
  let bs := buttons_or_default (buttons req) in
  fst (notice h req width iconSize doc) = Fulfilled r ->
  r = dismissed_result req
  \/ (exists input,
        r = close_value (prompt req) (okButtonIdx (wire_buttons (prompt req) bs)) input)
  \/ (exists i input,
        i < List.length bs /\ r = close_value (prompt req) (Z.of_nat i) input).
Proof.
  intros bs. rewrite notice_eq.
  destruct (appendChild_error h) as [e|]; [intros [= <-]; now left|].
  destruct (first_closing_event (List.length bs) (user h))
    as [Hall | (pre & ev & rest & Huser & Hpre & Hev)]; unfold shown_dialog.
  - rewrite serve_all_idle by exact Hall. discriminate.
  - rewrite Huser, serve_closing by assumption.
    destruct ev as [t | i | | err]; simpl in Hev; try discriminate; intros [= <-].
    + right; right. exists i. eexists. split; [now apply Nat.leb_gt | reflexivity].
    + right; left. eexists. reflexivity.
    + now left.
Qed.

(** X1: whatever the host does, the [which] of a result is [-1] or the index
    of one of the buttons of the dialog. *)
Theorem notice_which_in_range (h : Host) (req : Request) (width iconSize : Z)
    (doc : Document) (r : Result) :
  fst (notice h req width iconSize doc) = Fulfilled r ->
  (which r = -1
   \/ 0 <= which r < Z.of_nat (List.length (buttons_or_default (buttons req))))%Z.
Proof.
  intros Hrun.
  destruct (notice_fulfilled_cases h req width iconSize doc r Hrun)
    as [-> | [(input & ->) | (i & input & Hi & ->)]]; simpl which.
  - eapply last_index_in_range, cancelButtonIdx_last.
  - eapply last_index_in_range, okButtonIdx_last.
  - right. lia.
Qed.

Lemma notice_which_in_range_witness :
  let h := host_without_manifest [Click 7; Click 1] in
  let req := Variations.confirm_request "T" "M" None in
  fst (notice h req 360 14 empty_document)
    = Fulfilled {| which := 1; value := EmptyString |} /\
  (1 = -1 \/ 0 <= 1 < 2)%Z.
Proof.
  cbv zeta. split; [reflexivity|].
  exact (notice_which_in_range (host_without_manifest [Click 7; Click 1])
           (Variations.confirm_request "T" "M" None) 360 14 empty_document
           {| which := 1; value := EmptyString |} eq_refl).
Defined.

(** ** The document across a call *)

Lemma filter_fresh (n : nat) (l : list nat) :
  Forall (fun m => m < n) l ->
  filter (fun m => negb (Nat.eqb m n)) l = l.
Proof.
  induction 1 as [|m l Hm _ IH]; [reflexivity|]. simpl.
  destruct (Nat.eqb_spec m n) as [->|_]; [lia|]. simpl. now rewrite IH.
Qed.

Lemma Forall_lt_S (n : nat) (l : list nat) :
  Forall (fun m => m < n) l -> Forall (fun m => m < S n) l.
Proof.
  intros H. eapply Forall_impl; [|exact H]. simpl. intros; lia.
Qed.

Lemma notice_document (h : Host) (req : Request) (width iconSize : Z) (doc : Document) :
  well_formed doc ->
  well_formed (snd (notice h req width iconSize doc)) /\
  next_node (snd (notice h req width iconSize doc)) = S (next_node doc) /\
  children (snd (notice h req width iconSize doc))
  = match fst (notice h req width iconSize doc) with
    | Pending => (children doc ++ [next_node doc])%list
    | _ => children doc
    end.
Proof.
  intros Hwf. rewrite notice_eq.
  assert (Hrm : forall l, children (torn_down doc (l ++ [next_node doc])%list)
                          = filter (fun m => negb (Nat.eqb m (next_node doc))) l).
  { intros l. unfold torn_down. simpl. rewrite filter_app. simpl.
    rewrite Nat.eqb_refl. apply app_nil_r. }
  assert (Hwf' : well_formed (torn_down doc (children doc ++ [next_node doc])%list)).
  { unfold well_formed. rewrite Hrm, filter_fresh by exact Hwf.
    now apply Forall_lt_S. }
  unfold well_formed in Hwf.
  destruct (appendChild_error h) as [e|].
  { unfold well_formed, torn_down. simpl. rewrite filter_fresh by exact Hwf.
    repeat split. now apply Forall_lt_S. }
  destruct (serve _ _ _); simpl fst; simpl snd.
  - rewrite Hrm, filter_fresh by exact Hwf. now repeat split.
  - rewrite Hrm, filter_fresh by exact Hwf. now repeat split.
  - repeat split.
    unfold well_formed. simpl. apply Forall_app. split.
    + now apply Forall_lt_S.
    + constructor; [lia | constructor].
Qed.

(** X2: on a document whose children were all allocated by it, a call of
    [notice] allocates exactly one node and keeps the document well formed;
    once the call has completed the children are exactly those of before,
    and while the modal is open the dialog is the last child. *)
Theorem notice_preserves_document (h : Host) (req : Request) (width iconSize : Z)
    (doc : Document) :
  let completion := fst (notice h req width iconSize doc) in
  let doc' := snd (notice h req width iconSize doc) in
  well_formed doc ->
  well_formed doc' /\
  next_node doc' = S (next_node doc) /\
  (completion <> Pending -> children doc' = children doc) /\
  (completion = Pending -> children doc' = (children doc ++ [next_node doc])%list).
Proof.
  intros completion doc' Hwf.
  destruct (notice_document h req width iconSize doc Hwf) as (Hwf' & Hnext & Hchildren).
  fold doc' in Hwf', Hnext, Hchildren. fold completion in Hchildren.
  repeat split; try assumption.
  - intros Hdone. rewrite Hchildren. destruct completion; congruence.
  - intros Hopen. rewrite Hchildren. now rewrite Hopen.
Qed.

Lemma notice_preserves_document_witness :
  let h := host_without_manifest [TypeText "x"; Submit] in
  let req := Variations.prompt_request "T" "M" (Some "Name") None in
  let doc := mkDocument 7 [2; 5] in
  well_formed doc /\
  snd (notice h req 360 14 doc) = mkDocument 8 [2; 5] /\
  well_formed (snd (notice h req 360 14 doc)).
Proof.
  cbv zeta.
  assert (Hwf : well_formed (mkDocument 7 [2; 5]))
    by (repeat constructor; simpl; lia).
  split; [exact Hwf|]. split; [reflexivity|].
  exact (proj1 (notice_preserves_document
                  (host_without_manifest [TypeText "x"; Submit])
                  (Variations.prompt_request "T" "M" (Some "Name") None)
                  360 14 (mkDocument 7 [2; 5]) Hwf)).
Defined.

(** ** The icon *)

Lemma resolved_icon_from_manifest (h : Host) (manifest : Manifest) (iconSize : Z) :
  manifest_resolves h manifest ->
  resolved_icon h (Some "app-icon") iconSize
  = if Js.truthy (manifest_icon manifest)
    then (manifest_icon manifest, 32%Z)
    else (Some "app-icon", iconSize).
Proof.
  intros (fs & folder & file & json & H1 & H2 & H3 & H4 & H5).
  unfold resolved_icon, app_icon, AsyncMonad.try_catch, AsyncMonad.bind, AsyncMonad.await.
  simpl Js.strict_eq. cbv iota.
  rewrite H1. simpl. rewrite H2. simpl. rewrite H3. simpl. rewrite H4. simpl.
  rewrite H5. simpl. destruct (Js.truthy (manifest_icon manifest)); reflexivity.
Qed.

(** X3: with the sentinel as icon and a manifest that names an icon, the
    dialog is rendered with that icon and with an icon size of 32, whatever
    size the caller passed. *)
Theorem app_icon_taken_from_manifest (h : Host) (req : Request) (width iconSize : Z)
    (doc : Document) (manifest : Manifest) (src : string) :
  icon req = Some "app-icon" ->
  manifest_resolves h manifest ->
  manifest_icon manifest = Some src ->
  src <> EmptyString ->
  innerHTML (shown_dialog h req width iconSize doc)
    = Template.innerHTML width (isError req) 32 (title req) (Some src) (msgs req)
        (prompt req) (buttons_or_default (buttons req)) /\
  contains (img_tag src) (innerHTML (shown_dialog h req width iconSize doc)).
Proof.
  intros Hicon Hres Hsrc Hne.
  assert (Htruthy : Js.truthy (Some src) = true)
    by (destruct src; [now contradiction Hne | reflexivity]).
  assert (E : innerHTML (shown_dialog h req width iconSize doc)
              = Template.innerHTML width (isError req) 32 (title req) (Some src)
                  (msgs req) (prompt req) (buttons_or_default (buttons req))).
  { unfold shown_dialog. rewrite Hicon, (resolved_icon_from_manifest h manifest) by exact Hres.
    rewrite Hsrc, Htruthy. reflexivity. }
  split; [exact E|]. rewrite E.
  eapply contains_trans; [now apply (header_img (title req))|apply innerHTML_header].
Qed.

Lemma app_icon_taken_from_manifest_witness :
  let h := host_with_manifest_icon (Some "images/icon.png") [Click 0] in
  let req := Variations.alertWithAppIcon_request "About" ["M"] in
  manifest_resolves h (mkManifest (Some "images/icon.png")) /\
  contains (img_tag "images/icon.png")
    (innerHTML (shown_dialog h req default_width default_iconSize empty_document)).
Proof.
  cbv zeta.
  assert (Hres : manifest_resolves
                   (host_with_manifest_icon (Some "images/icon.png") [Click 0])
                   (mkManifest (Some "images/icon.png"))).
  { eexists _, _, _, _. repeat split. }
  split; [exact Hres|].
  refine (proj2 (app_icon_taken_from_manifest _
                   (Variations.alertWithAppIcon_request "About" ["M"])
                   default_width default_iconSize empty_document
                   (mkManifest (Some "images/icon.png")) "images/icon.png"
                   eq_refl Hres eq_refl _)).
  discriminate.
Defined.

(** X4: unless the icon is the sentinel, the host file system and
    [JSON.parse] have no part in the call: two hosts that agree on
    [appendChild] and on what the user does give the same dialog and the same
    completion, and the icon and icon size are rendered as passed. *)
Theorem notice_consults_manifest_for_sentinel_only (h h' : Host) (req : Request)
    (width iconSize : Z) (doc : Document) :
  Js.strict_eq (icon req) "app-icon" = false ->
  appendChild_error h = appendChild_error h' ->
  user h = user h' ->
  innerHTML (shown_dialog h req width iconSize doc)
    = Template.innerHTML width (isError req) iconSize (title req) (icon req) (msgs req)
        (prompt req) (buttons_or_default (buttons req)) /\
  shown_dialog h req width iconSize doc = shown_dialog h' req width iconSize doc /\
  notice h req width iconSize doc = notice h' req width iconSize doc.
Proof.
  intros Hicon Happend Huser.
  assert (E : forall host, shown_dialog host req width iconSize doc
                           = build_dialog (next_node doc) width iconSize (icon req) req).
  { intros host. unfold shown_dialog. now rewrite resolved_icon_other. }
  split; [now rewrite E|]. split; [now rewrite !E|].
  now rewrite !notice_eq, !E, Happend, Huser.
Qed.

Lemma notice_consults_manifest_for_sentinel_only_witness :
  let h := host_without_manifest [Click 0] in
  let h' := host_with_manifest_icon (Some "images/icon.png") [Click 0] in
  let req := Variations.error_request "T" ["M"] in
  Js.strict_eq (icon req) "app-icon" = false /\
  notice h req 360 14 empty_document = notice h' req 360 14 empty_document.
Proof.
  cbv zeta. split; [reflexivity|].
  apply (notice_consults_manifest_for_sentinel_only
           (host_without_manifest [Click 0])
           (host_with_manifest_icon (Some "images/icon.png") [Click 0])
           (Variations.error_request "T" ["M"]) 360 14 empty_document);
    reflexivity.
Defined.

(** ** Messages and the prompt *)

(** X5: the link test looks at the first four characters as they are: a
    message shorter than four characters is a paragraph, a message that
    continues [http] is a link whatever follows, and the test is sensitive to
    case and to leading space. *)
Theorem message_link_test_edges (msg : string) :
  (String.length msg < 4 -> Template.message msg = paragraph msg) /\
  Template.message ("http" ++ msg) = hyperlink ("http" ++ msg) ("http" ++ msg) /\
  Template.message ("HTTP" ++ msg) = paragraph ("HTTP" ++ msg) /\
  Template.message (" http" ++ msg) = paragraph (" http" ++ msg).
Proof.
  repeat split.
  - intros Hlen. unfold Template.message. rewrite substr4_prefix.
    destruct (String.prefix "http" msg) eqn:Hpre; [|reflexivity].
    apply prefix_correct in Hpre.
    destruct msg as [|a [|b [|c [|d msg]]]]; simpl in Hlen; try lia;
      simpl in Hpre; discriminate.
  - unfold Template.message, hyperlink, Template.attr. simpl.
    destruct msg; simpl; now rewrite ?append_assoc.
Qed.

Lemma message_link_test_edges_witness :
  String.length "htt" < 4 /\ Template.message "htt" = paragraph "htt".
Proof.
  split; [simpl; lia|].
  apply (message_link_test_edges "htt"). simpl. lia.
Defined.

(** X6: a placeholder that is left out or is the empty string requests no
    prompt: the markup has no input, and every result has the empty string as
    [value], whatever the user typed and however the dialog was closed. *)
Theorem empty_placeholder_is_no_prompt (h : Host) (req : Request) (width iconSize : Z)
    (doc : Document) :
  prompt req = None \/ prompt req = Some EmptyString ->
  Template.prompt_input (prompt req) = EmptyString /\
  prompt_input (shown_dialog h req width iconSize doc) = false /\
  forall r, fst (notice h req width iconSize doc) = Fulfilled r ->
            value r = EmptyString.
Proof.
  intros Hprompt.
  assert (Hfalsy : Js.truthy (prompt req) = false)
    by (destruct Hprompt as [-> | ->]; reflexivity).
  repeat split.
  - unfold Template.prompt_input. now rewrite Hfalsy.
  - exact Hfalsy.
  - intros r Hrun.
    destruct (notice_fulfilled_cases h req width iconSize doc r Hrun)
      as [-> | [(input & ->) | (i & input & _ & ->)]];
      unfold close_value; simpl value; now rewrite ?Hfalsy.
Qed.

Lemma empty_placeholder_is_no_prompt_witness :
  let h := host_without_manifest [TypeText "Bob"; Click 1] in
  let req := Variations.prompt_request "T" "M" (Some EmptyString) None in
  (prompt req = None \/ prompt req = Some EmptyString) /\
  fst (notice h req 360 14 empty_document)
    = Fulfilled {| which := 1; value := EmptyString |} /\
  value {| which := 1; value := EmptyString |} = EmptyString.
Proof.
  cbv zeta. split; [now right|]. split; [reflexivity|].
  apply (proj2 (proj2 (empty_placeholder_is_no_prompt
                         (host_without_manifest [TypeText "Bob"; Click 1])
                         (Variations.prompt_request "T" "M" (Some EmptyString) None)
                         360 14 empty_document (or_intror eq_refl)))).
  reflexivity.
Defined.

(** ** Buttons *)

Lemma interp_idx_inj (i j : nat) : Js.interp_idx i = Js.interp_idx j -> i = j.
Proof.
  unfold Js.interp_idx. intros E.
  assert (Hnorm : forall n, Nat.to_uint n <> Decimal.Nil).
  { intros n. rewrite <- (DecimalNat.Unsigned.of_to n) at 1.
    rewrite DecimalNat.Unsigned.to_of. apply DecimalFacts.unorm_nonnil. }
  apply DecimalNat.Unsigned.to_uint_inj.
  assert (Some (Nat.to_uint i) = Some (Nat.to_uint j)) as [= ->]; [|reflexivity].
  rewrite <- (NilZero.usu (Nat.to_uint i)), <- (NilZero.usu (Nat.to_uint j)) by apply Hnorm.
  now rewrite E.
Qed.

Lemma append_inj_l (a b c : string) : a ++ b = a ++ c -> b = c.
Proof. induction a as [|x a IH]; simpl; [trivial | intros [= E]; auto]. Qed.

Lemma string_of_uint_digits (d : Decimal.uint) :
  all_digits (NilEmpty.string_of_uint d) = true.
Proof. induction d; simpl; try rewrite IHd; reflexivity. Qed.

Lemma interp_idx_digits (n : nat) : all_digits (Js.interp_idx n) = true.
Proof.
  unfold Js.interp_idx. generalize (Nat.to_uint n) as d.
  destruct d;
    first [ reflexivity
          | match goal with
            | |- all_digits (NilZero.string_of_uint ?u) = true =>
                exact (string_of_uint_digits u)
            end ].
Qed.

(** Two runs of digits that end at the same character, not a digit, are the
    same run. *)
Lemma digits_delimited (c : ascii) (a b x y : string) :
  is_digit c = false ->
  all_digits a = true -> all_digits b = true ->
  a ++ String c x = b ++ String c y -> a = b.
Proof.
  intros Hc. revert b.
  induction a as [|ca a IH]; intros [|cb b] Ha Hb E; simpl in *.
  - reflexivity.
  - injection E as -> _. apply andb_true_iff in Hb as [Hb _]. congruence.
  - injection E as -> _. apply andb_true_iff in Ha as [Ha _]. congruence.
  - injection E as -> E.
    apply andb_true_iff in Ha as [_ Ha]. apply andb_true_iff in Hb as [_ Hb].
    f_equal. now apply IH.
Qed.

(** X7: of the button elements the footer template produces, the one at
    index [j] begins with [<button id="btn<j>"], and it begins with the
    opening of no other index: the closing quote keeps apart indices of which
    one continues the digits of the other, such as 1 and 10. *)
Theorem button_opening_identifies_index (bs : list Button) (i j : nat)
    (element : string) :
  nth_error (Js.mapi Template.button bs) j = Some element ->
  (exists rest, element = button_opening j ++ rest) /\
  ((exists rest, element = button_opening i ++ rest) -> i = j).
Proof.
  unfold Js.mapi. rewrite nth_error_map_from. simpl Nat.add.
  destruct (nth_error bs j) as [b|]; [|discriminate]. intros [= <-].
  split.
  - eexists. unfold Template.button, Template.attr, button_opening.
    rewrite !append_assoc. reflexivity.
  - intros (rest & E).
    unfold Template.button, Template.attr, button_opening in E.
    rewrite !append_assoc in E.
    apply (append_inj_l "<button id=") in E.
    apply (append_inj_l Js.dq) in E.
    apply (append_inj_l "btn") in E.
    apply interp_idx_inj. symmetry.
    apply (digits_delimited (ascii_of_nat 34)) in E;
      [exact E | reflexivity | apply interp_idx_digits | apply interp_idx_digits].
Qed.

Lemma button_opening_identifies_index_witness :
  let b := mkButton (Some "OK") (Some "button") None in
  let bs := repeat b 11 in
  nth_error (Js.mapi Template.button bs) 10 = Some (Template.button b 10) /\
  ~ (exists rest, Template.button b 10 = button_opening 1 ++ rest).
Proof.
  cbv zeta. split; [reflexivity|]. intros Hopen.
  apply (button_opening_identifies_index
           (repeat (mkButton (Some "OK") (Some "button") None) 11) 1 10
           (Template.button (mkButton (Some "OK") (Some "button") None) 10)
           eq_refl) in Hopen.
  discriminate Hopen.
Defined.

(** ** The constructors *)

Lemma notice_on_submit (h : Host) (req : Request) (width iconSize : Z) (doc : Document)
    (pre rest : list Event) :
  let bs := buttons_or_default (buttons req) in
  appendChild_error h = None ->
  user h = (pre ++ Submit :: rest)%list ->
  forallb (idle (List.length bs)) pre = true ->
  fst (notice h req width iconSize doc)
  = Fulfilled (close_value (prompt req) (okButtonIdx (wire_buttons (prompt req) bs))
                 (typed (Js.truthy (prompt req)) EmptyString pre)).
Proof.
  intros bs Happend Huser Hpre. rewrite notice_eq, Happend, Huser.
  unfold shown_dialog. now rewrite serve_closing by (exact Hpre || reflexivity).
Qed.

(** X8: what Enter and Escape mean in the two-button dialogs.  Form
    submission resolves [confirm] and [prompt] with the index 1 of their OK
    button, [prompt] with the typed text, and resolves [warning] with the
    index 0 of its Cancel button; a failed or dismissed modal resolves
    [confirm] and [prompt] with the index 0 of Cancel and [warning], which
    has no reset button, with [-1]. *)
Theorem two_button_dialogs_submit_and_dismiss (h : Host) (title msg : string)
    (placeholder : Js.prop) (labels : option (list string)) (doc : Document) :
  (forall pre rest : list Event,
     appendChild_error h = None ->
     user h = (pre ++ Submit :: rest)%list ->
     forallb (idle 2) pre = true ->
     fst (Variations.confirm h title msg labels doc)
       = Fulfilled {| which := 1; value := EmptyString |} /\
     fst (Variations.prompt h title msg placeholder labels doc)
       = Fulfilled {| which := 1;
                      value := if Js.truthy placeholder
                               then typed true EmptyString pre else EmptyString |} /\
     fst (Variations.warning h title msg labels doc)
       = Fulfilled {| which := 0; value := EmptyString |}) /\
  (modal_display_fails h 2 ->
     fst (Variations.confirm h title msg labels doc)
       = Fulfilled {| which := 0; value := EmptyString |} /\
     fst (Variations.prompt h title msg placeholder labels doc)
       = Fulfilled {| which := 0; value := EmptyString |} /\
     fst (Variations.warning h title msg labels doc)
       = Fulfilled {| which := -1; value := EmptyString |}).
Proof.
  split.
  - intros pre rest Happend Huser Hpre. repeat split.
    + unfold Variations.confirm.
      now rewrite (notice_on_submit h (Variations.confirm_request title msg labels)
                     _ _ doc pre rest Happend Huser Hpre).
    + unfold Variations.prompt.
      rewrite (notice_on_submit h
                 (Variations.prompt_request title msg placeholder labels)
                 _ _ doc pre rest Happend Huser Hpre).
      unfold close_value. simpl. now destruct (Js.truthy placeholder).
    + unfold Variations.warning.
      now rewrite (notice_on_submit h (Variations.warning_request title msg labels)
                     _ _ doc pre rest Happend Huser Hpre).
  - intros Hfail. repeat split.
    + unfold Variations.confirm. now rewrite notice_display_failure.
    + unfold Variations.prompt. now rewrite notice_display_failure.
    + unfold Variations.warning. now rewrite notice_display_failure.
Qed.

Lemma two_button_dialogs_submit_and_dismiss_witness :
  let h := host_without_manifest [TypeText "Bob"; Submit] in
  appendChild_error h = None /\
  user h = ([TypeText "Bob"] ++ Submit :: [])%list /\
  forallb (idle 2) [TypeText "Bob"] = true /\
  fst (Variations.warning h "T" "M" None empty_document)
    = Fulfilled {| which := 0; value := EmptyString |}.
Proof.
  cbv zeta. repeat (split; [reflexivity|]).
  apply (proj1 (two_button_dialogs_submit_and_dismiss
                  (host_without_manifest [TypeText "Bob"; Submit])
                  "T" "M" (Some "Name") None empty_document)
           [TypeText "Bob"] [] eq_refl eq_refl eq_refl).
Defined.

(** X9: [alert], [alertWithAppIcon] and [error] have the Close button only:
    a result of theirs has the empty string as [value] and 0 as [which],
    unless the modal failed or was dismissed, which gives [-1]. *)
Theorem alert_family_results (h : Host) (title : string) (msgs : list string)
    (doc : Document) (r : Result) :
  fst (Variations.alert h title msgs doc) = Fulfilled r
  \/ fst (Variations.alertWithAppIcon h title msgs doc) = Fulfilled r
  \/ fst (Variations.error h title msgs doc) = Fulfilled r ->
  value r = EmptyString /\
  (which r = 0%Z \/ which r = (-1)%Z) /\
  (modal_display_fails h 1 -> which r = (-1)%Z).
Proof.
  assert (Hreq : forall req,
            prompt req = None -> buttons req = None ->
            fst (notice h req default_width default_iconSize doc) = Fulfilled r ->
            value r = EmptyString /\ (which r = 0%Z \/ which r = (-1)%Z) /\
            (modal_display_fails h 1 -> which r = (-1)%Z)).
  { intros req Hp Hb Hrun. split; [|split].
    - destruct (notice_fulfilled_cases h req _ _ doc r Hrun)
        as [-> | [(input & ->) | (i & input & _ & ->)]];
        unfold close_value; rewrite ?Hp; reflexivity.
    - destruct (notice_fulfilled_cases h req _ _ doc r Hrun)
        as [-> | [(input & ->) | (i & input & Hi & ->)]];
        unfold dismissed_result; simpl which; rewrite ?Hb in *.
      + now right.
      + now left.
      + simpl in Hi. left. lia.
    - intros Hfail. rewrite notice_display_failure in Hrun by (now rewrite Hb).
      injection Hrun as <-. unfold dismissed_result. now rewrite Hb. }
  intros [Hrun | [Hrun | Hrun]]; eapply Hreq; try exact Hrun; reflexivity.
Qed.

Lemma alert_family_results_witness :
  let h := host_without_manifest [Dismiss (HostError "escape")] in
  let r := {| which := -1; value := EmptyString |} in
  fst (Variations.error h "T" ["M"] empty_document) = Fulfilled r /\
  value r = EmptyString /\ (which r = 0%Z \/ which r = (-1)%Z).
Proof.
  cbv zeta. split; [reflexivity|].
  destruct (alert_family_results
              (host_without_manifest [Dismiss (HostError "escape")]) "T" ["M"]
              empty_document {| which := -1; value := EmptyString |}
              (or_intror (or_intror eq_refl))) as (Hvalue & Hwhich & _).
  split; [exact Hvalue | exact Hwhich].
Defined.

Lemma two_buttons_footer (l0 l1 : Js.prop) (t0 v0 t1 v1 : string) :
  Template.footer_buttons [mkButton l0 (Some t0) (Some v0); mkButton l1 (Some t1) (Some v1)]
  = button_markup 0 t0 v0 (Js.interp l0) ++ "," ++ button_markup 1 t1 v1 (Js.interp l1).
Proof.
  unfold Template.footer_buttons, Js.interp_array, Js.mapi, Js.join.
  cbn [Js.map_from String.concat].
  unfold Template.button, Template.attr, button_markup. cbn [label type variant Js.interp].
  now rewrite !append_assoc.
Qed.

(** X10: [confirm], [warning] and [prompt] read the labels at positions 0 and
    1 of the array they are given: the footer is a first button with the text
    of position 0 and a second button with the text of position 1, each with
    the type and variant of its constructor, and a position the array does
    not have is rendered as the text [undefined]; so with fewer than two
    labels the second button of the dialog reads [undefined]. *)
Theorem labels_read_at_positions_0_and_1 (h : Host) (title msg : string)
    (placeholder : Js.prop) (labels : list string) (width iconSize : Z)
    (doc : Document) :
  let text k := Js.interp (nth_error labels k) in
  let footer_of req := Template.footer_buttons (buttons_or_default (buttons req)) in
  let markup_of req := innerHTML (shown_dialog h req width iconSize doc) in
  let confirm := Variations.confirm_request title msg (Some labels) in
  let warning := Variations.warning_request title msg (Some labels) in
  let prompt := Variations.prompt_request title msg placeholder (Some labels) in
  (footer_of confirm
     = button_markup 0 "reset" "primary" (text 0) ++ ","
         ++ button_markup 1 "submit" "cta" (text 1) /\
   footer_of warning
     = button_markup 0 "submit" "primary" (text 0) ++ ","
         ++ button_markup 1 "button" "warning" (text 1) /\
   footer_of prompt
     = button_markup 0 "reset" "primary" (text 0) ++ ","
         ++ button_markup 1 "submit" "cta" (text 1)) /\
  (List.length labels < 2 ->
   text 1 = "undefined" /\
   contains ("," ++ button_markup 1 "submit" "cta" "undefined") (markup_of confirm) /\
   contains ("," ++ button_markup 1 "button" "warning" "undefined") (markup_of warning) /\
   contains ("," ++ button_markup 1 "submit" "cta" "undefined") (markup_of prompt)).
Proof.
  intros text footer_of markup_of confirm warning prompt.
  assert (Hfooters :
            footer_of confirm
            = button_markup 0 "reset" "primary" (text 0) ++ ","
                ++ button_markup 1 "submit" "cta" (text 1) /\
            footer_of warning
            = button_markup 0 "submit" "primary" (text 0) ++ ","
                ++ button_markup 1 "button" "warning" (text 1) /\
            footer_of prompt
            = button_markup 0 "reset" "primary" (text 0) ++ ","
                ++ button_markup 1 "submit" "cta" (text 1)).
  { repeat split; apply two_buttons_footer. }
  split; [exact Hfooters|]. intros Hlen.
  assert (Htext : text 1 = "undefined").
  { unfold text. now replace (nth_error labels 1) with (@None string)
      by (symmetry; apply nth_error_None; lia). }
  destruct Hfooters as (Hc & Hw & Hp). rewrite Htext in Hc, Hw, Hp.
  split; [exact Htext|].
  assert (Hin : forall req needle before,
            footer_of req = before ++ needle -> contains needle (markup_of req)).
  { intros req needle before E.
    apply (contains_trans needle (footer_of req)).
    - rewrite E. apply contains_app_l, contains_refl.
    - unfold markup_of, footer_of, shown_dialog. cbn [build_dialog innerHTML].
      apply innerHTML_footer_buttons. }
  split; [exact (Hin confirm _ _ Hc)|].
  split; [exact (Hin warning _ _ Hw) | exact (Hin prompt _ _ Hp)].
Qed.

Lemma labels_read_at_positions_0_and_1_witness :
  List.length ["Only"] < 2 /\
  Template.footer_buttons
    (buttons_or_default (buttons (Variations.confirm_request "T" "M" (Some ["Only"]))))
  = button_markup 0 "reset" "primary" "Only" ++ ","
      ++ button_markup 1 "submit" "cta" "undefined" /\
  contains ("," ++ button_markup 1 "submit" "cta" "undefined")
    (innerHTML (shown_dialog (host_without_manifest [])
                  (Variations.confirm_request "T" "M" (Some ["Only"]))
                  360 14 empty_document)).
Proof.
  split; [simpl; lia|].
  destruct (labels_read_at_positions_0_and_1 (host_without_manifest []) "T" "M" None
              ["Only"] 360 14 empty_document) as ((Hconfirm & _) & Hshort).
  split; [exact Hconfirm|].
  apply Hshort. simpl; lia.
Defined.

(** ** The commands *)

Lemma returning_eq (call : Async Result) (doc : Document) :
  Commands.returning call doc
  = match call doc with
    | (Fulfilled r, doc') => (Fulfilled (Some r), doc')
    | (Rejected e, doc') => (Rejected e, doc')
    | (Pending, doc') => (Pending, doc')
    end.
Proof.
  unfold Commands.returning, AsyncMonad.bind, AsyncMonad.ret.
  destruct (call doc) as [[r | e |] doc']; reflexivity.
Qed.

Lemma notice_frames (h : Host) (req : Request) (width iconSize : Z) :
  frames (notice h req width iconSize).
Proof.
  intros doc Hwf.
  destruct (notice_document h req width iconSize doc Hwf) as (Hwf' & Hnext & Hchildren).
  repeat split; [assumption | lia |].
  intros Hdone. rewrite Hchildren.
  destruct (fst (notice h req width iconSize doc)); congruence.
Qed.

Section Composition.
Context {A B : Type} (m : Async A) (k : A -> Async B).

Lemma bind_frames :
  frames m -> (forall a, frames (k a)) -> frames (AsyncMonad.bind m k).
Proof.
  intros Hm Hk doc Hwf. unfold AsyncMonad.bind.
  destruct (Hm doc Hwf) as (Hwf1 & Hnext1 & Hsame1).
  destruct (m doc) as [[a | e |] doc1]; simpl in *.
  - destruct (Hk a doc1 Hwf1) as (Hwf2 & Hnext2 & Hsame2).
    repeat split; [assumption | lia |].
    intros Hdone. rewrite Hsame2 by exact Hdone. now apply Hsame1.
  - repeat split; [assumption | assumption |]. intros _. now apply Hsame1.
  - repeat split; [assumption | assumption |]. intros Hdone. now contradiction Hdone.
Qed.

End Composition.

Lemma ret_frames {A : Type} (a : A) : frames (AsyncMonad.ret a).
Proof. intros doc Hwf. repeat split; [assumption | simpl; lia]. Qed.

(** The results of the two-button dialogs with a reset button carry the
    index of one of the two buttons. *)
Lemma reset_dialog_which (h : Host) (req : Request) (doc : Document) (r : Result)
    (l0 l1 : Js.prop) :
  buttons req = Some [ mkButton l0 (Some "reset") (Some "primary");
                       mkButton l1 (Some "submit") (Some "cta") ] ->
  fst (notice h req default_width default_iconSize doc) = Fulfilled r ->
  which r = 0%Z \/ which r = 1%Z.
Proof.
  intros Hb Hrun.
  destruct (notice_fulfilled_cases h req _ _ doc r Hrun)
    as [-> | [(input & ->) | (i & input & Hi & ->)]];
    unfold dismissed_result; simpl which; rewrite Hb in *.
  - now left.
  - now right.
  - simpl in Hi. lia.
Qed.

(** X11: [showConfirm] and [showPrompt] always show their second dialog: once
    the first one has resolved, its [which] is 0 or 1, also when it was
    dismissed, and the command continues with the alert of that case on the
    document the first dialog left; [showPrompt] passes the entered value
    into the message of case 1. *)
Theorem confirm_and_prompt_commands_follow_up (h h' : Host) (doc doc1 : Document)
    (res : Result) :
  (Commands.showConfirm_question h doc = (Fulfilled res, doc1) ->
   (which res = 0%Z /\
    Commands.showConfirm h h' doc
    = Commands.returning
        (Variations.alert h' "Smart Filters" ["You clicked 'Cancel'"]) doc1)
   \/ (which res = 1%Z /\
       Commands.showConfirm h h' doc
       = Commands.returning
           (Variations.alert h' "Smart Filters Enabled" ["You clicked 'Enable'"]) doc1))
  /\
  (Commands.showPrompt_question h doc = (Fulfilled res, doc1) ->
   (which res = 0%Z /\
    Commands.showPrompt h h' doc
    = Commands.returning
        (Variations.alert h' "Shape to Create" ["You didn't want to apply a shape."])
        doc1)
   \/ (which res = 1%Z /\
       Commands.showPrompt h h' doc
       = Commands.returning
           (Variations.alert h' "Shape to Create"
              ["You wanted to create a " ++ value res ++ "!"]) doc1)).
Proof.
  split; intros Hfirst.
  - assert (Hwhich : which res = 0%Z \/ which res = 1%Z).
    { eapply (reset_dialog_which h (Variations.confirm_request _ _ _) doc);
        [reflexivity|].
      unfold Commands.showConfirm_question, Variations.confirm in Hfirst.
      now rewrite Hfirst. }
    unfold Commands.showConfirm, AsyncMonad.bind. rewrite Hfirst.
    destruct Hwhich as [E | E]; rewrite E; [left | right]; now split.
  - assert (Hwhich : which res = 0%Z \/ which res = 1%Z).
    { eapply (reset_dialog_which h (Variations.prompt_request _ _ _ _) doc);
        [reflexivity|].
      unfold Commands.showPrompt_question, Variations.prompt in Hfirst.
      now rewrite Hfirst. }
    unfold Commands.showPrompt, AsyncMonad.bind. rewrite Hfirst.
    destruct Hwhich as [E | E]; rewrite E; [left | right]; now split.
Qed.

Lemma confirm_and_prompt_commands_follow_up_witness :
  let h := host_without_manifest [Dismiss (HostError "escape")] in
  let h' := host_without_manifest [Click 0] in
  Commands.showConfirm_question h empty_document
    = (Fulfilled {| which := 0; value := EmptyString |}, mkDocument 1 []) /\
  Commands.showConfirm h h' empty_document
    = (Fulfilled (Some {| which := 0; value := EmptyString |}), mkDocument 2 []).
Proof.
  cbv zeta. split; [reflexivity|].
  destruct (proj1 (confirm_and_prompt_commands_follow_up
                     (host_without_manifest [Dismiss (HostError "escape")])
                     (host_without_manifest [Click 0])
                     empty_document (mkDocument 1 [])
                     {| which := 0; value := EmptyString |}) eq_refl)
    as [[_ E] | [E _]]; [|discriminate E].
  rewrite E. reflexivity.
Defined.

(** X12: in [showPrompt], when the user confirms the first dialog with OK or
    by submitting the form, the text typed so far is put as it is into the
    message of the second dialog, which renders it as a paragraph. *)
Theorem showPrompt_reports_typed_text (h h' : Host) (doc : Document)
    (pre rest : list Event) (ev : Event) :
  let text := typed true EmptyString pre in
  let doc1 := snd (Commands.showPrompt_question h doc) in
  let report := "You wanted to create a " ++ text ++ "!" in
  appendChild_error h = None ->
  user h = (pre ++ ev :: rest)%list ->
  forallb (idle 2) pre = true ->
  ev = Submit \/ ev = Click 1 ->
  Commands.showPrompt h h' doc
    = Commands.returning (Variations.alert h' "Shape to Create" [report]) doc1 /\
  contains (paragraph report)
    (innerHTML (shown_dialog h' (Variations.alert_request "Shape to Create" [report])
                  default_width default_iconSize doc1)).
Proof.
  intros text doc1 report Happend Huser Hpre Hev. split.
  - assert (Hfirst : fst (Commands.showPrompt_question h doc)
                     = Fulfilled {| which := 1; value := text |}).
    { unfold Commands.showPrompt_question, Variations.prompt.
      rewrite notice_eq, Happend, Huser. unfold shown_dialog.
      rewrite serve_closing by (exact Hpre || (destruct Hev as [-> | ->]; reflexivity)).
      destruct Hev as [-> | ->]; reflexivity. }
    unfold Commands.showPrompt, AsyncMonad.bind. subst doc1.
    destruct (Commands.showPrompt_question h doc) as [c d1]. simpl in Hfirst.
    subst c. reflexivity.
  - eapply contains_trans; [|apply innerHTML_messages].
    unfold shown_dialog. cbn [msgs Variations.alert_request].
    unfold Template.messages. cbn [map Js.join String.concat].
    unfold Template.message, paragraph, report. apply contains_refl.
Qed.

Lemma showPrompt_reports_typed_text_witness :
  let h := host_without_manifest [TypeText "circle"; Click 1] in
  let h' := host_without_manifest [Click 0] in
  appendChild_error h = None /\
  user h = ([TypeText "circle"] ++ Click 1 :: [])%list /\
  forallb (idle 2) [TypeText "circle"] = true /\
  contains (paragraph "You wanted to create a circle!")
    (innerHTML (shown_dialog h'
                  (Variations.alert_request "Shape to Create"
                     ["You wanted to create a circle!"])
                  default_width default_iconSize (mkDocument 1 []))).
Proof.
  cbv zeta. repeat (split; [reflexivity|]).
  apply (proj2 (showPrompt_reports_typed_text
                  (host_without_manifest [TypeText "circle"; Click 1])
                  (host_without_manifest [Click 0]) empty_document
                  [TypeText "circle"] [] (Click 1)
                  eq_refl eq_refl eq_refl (or_intror eq_refl))).
Defined.

Lemma notice_next_node (h : Host) (req : Request) (width iconSize : Z) (doc : Document) :
  next_node (snd (notice h req width iconSize doc)) = S (next_node doc).
Proof.
  rewrite notice_eq. destruct (appendChild_error h); [reflexivity|].
  destruct (serve _ _ _); reflexivity.
Qed.

(** X13: [warning] has no reset button, so when its modal fails or is
    dismissed [showWarning] gets [which = -1], which is no case of its
    [switch]: the command resolves with [undefined] on the document the first
    dialog left, and no second dialog is built, only the node of the first
    one was allocated. *)
Theorem showWarning_dismissed_shows_nothing (h h' : Host) (doc : Document) :
  modal_display_fails h 2 ->
  fst (Commands.showWarning_question h doc)
    = Fulfilled {| which := -1; value := EmptyString |} /\
  fst (Commands.showWarning h h' doc) = Fulfilled None /\
  snd (Commands.showWarning h h' doc) = snd (Commands.showWarning_question h doc) /\
  next_node (snd (Commands.showWarning h h' doc)) = S (next_node doc).
Proof.
  intros Hfail.
  assert (Hfirst : fst (Commands.showWarning_question h doc)
                   = Fulfilled {| which := -1; value := EmptyString |}).
  { unfold Commands.showWarning_question, Variations.warning.
    now rewrite notice_display_failure. }
  assert (Hnode : next_node (snd (Commands.showWarning_question h doc))
                  = S (next_node doc)) by apply notice_next_node.
  split; [exact Hfirst|].
  unfold Commands.showWarning, AsyncMonad.bind.
  destruct (Commands.showWarning_question h doc) as [c doc1].
  simpl in Hfirst, Hnode. subst c. repeat split. exact Hnode.
Qed.

Lemma showWarning_dismissed_shows_nothing_witness :
  let h := host_without_manifest [Dismiss (HostError "escape")] in
  let h' := host_without_manifest [Click 0] in
  modal_display_fails h 2 /\
  fst (Commands.showWarning h h' empty_document) = Fulfilled None.
Proof.
  cbv zeta.
  assert (Hfail : modal_display_fails
                    (host_without_manifest [Dismiss (HostError "escape")]) 2).
  { right. split; [reflexivity|]. now exists [], (HostError "escape"), []. }
  split; [exact Hfail|].
  apply (showWarning_dismissed_shows_nothing
           (host_without_manifest [Dismiss (HostError "escape")])
           (host_without_manifest [Click 0]) empty_document Hfail).
Defined.

Lemma returning_frames (call : Async Result) :
  frames call -> frames (Commands.returning call).
Proof.
  intros Hcall. unfold Commands.returning.
  apply bind_frames; [exact Hcall | intros r; apply ret_frames].
Qed.

(** X15: every command cleans up after itself: on a well-formed document it
    keeps the document well formed, and once it has completed, after one
    dialog or after two, the children of the document are those of before. *)
Theorem commands_leave_document_as_found (h h' : Host) :
  frames (Commands.showAlert h) /\
  frames (Commands.showError h) /\
  frames (Commands.showAbout h) /\
  frames (Commands.showConfirm h h') /\
  frames (Commands.showPrompt h h') /\
  frames (Commands.showWarning h h').
Proof.
  split; [|split; [|split; [|split; [|split]]]]; try apply notice_frames.
  - unfold Commands.showConfirm. apply bind_frames.
    + apply notice_frames.
    + intros r. destruct (which r) as [|[p|p|]|p];
        try apply ret_frames; apply returning_frames, notice_frames.
  - unfold Commands.showPrompt. apply bind_frames.
    + apply notice_frames.
    + intros r. destruct (which r) as [|[p|p|]|p];
        try apply ret_frames; apply returning_frames, notice_frames.
  - unfold Commands.showWarning. apply bind_frames.
    + apply notice_frames.
    + intros r. destruct (which r) as [|[p|p|]|p];
        try apply ret_frames; apply returning_frames, notice_frames.
Qed.

Lemma commands_leave_document_as_found_witness :
  let h := host_without_manifest [TypeText "circle"; Submit] in
  let h' := host_without_manifest [Click 0] in
  let doc := mkDocument 7 [2; 5] in
  well_formed doc /\
  fst (Commands.showPrompt h h' doc) <> Pending /\
  children (snd (Commands.showPrompt h h' doc)) = children doc.
Proof.
  cbv zeta.
  assert (Hwf : well_formed (mkDocument 7 [2; 5]))
    by (repeat constructor; simpl; lia).
  assert (Hdone : fst (Commands.showPrompt
                         (host_without_manifest [TypeText "circle"; Submit])
                         (host_without_manifest [Click 0]) (mkDocument 7 [2; 5]))
                  <> Pending) by (vm_compute; discriminate).
  split; [exact Hwf|]. split; [exact Hdone|].
  destruct (commands_leave_document_as_found
              (host_without_manifest [TypeText "circle"; Submit])
              (host_without_manifest [Click 0]))
    as (_ & _ & _ & _ & Hprompt & _).
  exact (proj2 (proj2 (Hprompt (mkDocument 7 [2; 5]) Hwf)) Hdone).
Defined.
